(** * Model factory, fine-tuned checkpoint loader and training-curve plots

    A shallow embedding of [src/utils/models.py] (class [Models]) and of
    [src/utils/view_model.py] (the standalone [plot_training_metrics]).

    Python objects are modelled by the data they carry:
    - a checkpoint is a dictionary from string keys to Python values;
    - floats are rationals ([Q]); only their order, their equality and a few
      sums and products are used, and NaN is left out;
    - the file system is a finite map from path strings to files; which
      directories exist, and what the dataset host answers, is given with
      the world;
    - effects (exceptions, the mutable [Models] object, the file system, the
      record of file accesses) are threaded by a state-and-exception monad
      in which the state survives an exception, as it does in Python;
    - torchvision, torch and matplotlib are outside the repository: their
      calls are modelled by what they leave behind (the head layers of an
      architecture, the figure that is saved). *)

From stdpp Require Import base strings gmap list.
From Stdlib Require Import QArith.

Local Open Scope Z_scope.

(** ** Python values and exceptions *)

Inductive device := cuda | cpu.

Inductive arch :=
  | efficientnet_b0
  | efficientnet_b1
  | mobilenet_v3_large
  | shufflenet_v2_x2_0.

(** The learned parameters of a checkpoint ([checkpoint["model_state_dict"]]):
    the architecture whose parameter names and shapes it has, the shape of
    its final linear layer, and a tag standing for the tensor values. *)
Record state_dict := {
  sd_arch : arch;
  sd_head_in : Z;
  sd_head_out : Z;
  sd_values : positive
}.

Inductive pyval :=
  | PyFloat (q : Q)
  | PyList (l : list Q)
  | PyStateDict (sd : state_dict).

Inductive exn :=
  | FileNotFoundError (path : string)
  | FileExistsError (path : string)
  | UnpicklingError (path : string)
  | KeyError (key : string)
  | ValueError
  | TypeError
  | AttributeError
  | IndexError
  | RuntimeError
  | AuthenticationError.

Inductive result (A : Type) :=
  | Ok (a : A)
  | Raise (e : exn).
Arguments Ok {A} a.
Arguments Raise {A} e.

(** ** pathlib.Path (POSIX flavour) *)

Record Path := { absolute : bool; parts : list string }.

(** [Path.parent]: the path without its last component; a path without
    components is its own parent. *)
Definition parent (p : Path) : Path :=
  {| absolute := absolute p; parts := removelast (parts p) |}.

(** [p / name] for a single relative component [name]. *)
Definition truediv (p : Path) (name : string) : Path :=
  {| absolute := absolute p; parts := parts p ++ [name] |}.

Fixpoint join_parts (l : list string) : string :=
  match l with
  | [] => ""
  | [x] => x
  | x :: t => x +:+ "/" +:+ join_parts t
  end.

(** [str(p)] *)
Definition str (p : Path) : string :=
  if absolute p then "/" +:+ join_parts (parts p)
  else match parts p with
       | [] => "."
       | _ => join_parts (parts p)
       end.

(** ** Built-ins on lists of floats *)

(** [acc] is the running maximum: an item replaces it only when it is
    strictly greater, so the first of several equal maxima is kept. *)
Fixpoint max_from (acc : Q) (l : list Q) : Q :=
  match l with
  | [] => acc
  | x :: t =>
      match (x ?= acc)%Q with
      | Gt => max_from x t
      | _ => max_from acc t
      end
  end.

Fixpoint min_from (acc : Q) (l : list Q) : Q :=
  match l with
  | [] => acc
  | x :: t =>
      match (x ?= acc)%Q with
      | Lt => min_from x t
      | _ => min_from acc t
      end
  end.

(** [max(l)] and [min(l)]: ValueError on an empty sequence. *)
Definition py_max (l : list Q) : result Q :=
  match l with
  | [] => Raise ValueError
  | x :: t => Ok (max_from x t)
  end.

Definition py_min (l : list Q) : result Q :=
  match l with
  | [] => Raise ValueError
  | x :: t => Ok (min_from x t)
  end.

(** [l.index(v)]: the position of the first item equal ([==]) to [v];
    ValueError when there is none. *)
Fixpoint index_from (v : Q) (l : list Q) (i : nat) : result nat :=
  match l with
  | [] => Raise ValueError
  | x :: t => if Qeq_bool x v then Ok i else index_from v t (S i)
  end.

Definition py_index (l : list Q) (v : Q) : result nat := index_from v l 0.

(** [np.arange(1, n + 1)] *)
Definition arange1 (n : nat) : list nat := seq 1 n.

(** ** Networks (torch.nn) *)

(** Where the values of a parameter tensor come from. *)
Inductive weights :=
  | Pretrained (name : string)
  | RandomInit
  | LoadedFrom (values : positive).

Inductive layer :=
  | Dropout
  | Hardswish
  | Linear (in_features out_features : Z) (w : weights).

(** The attribute that holds the classification head: [model.classifier]
    (a Sequential) or [model.fc] (one layer). *)
Inductive head :=
  | Classifier (layers : list layer)
  | Fc (l : layer).

Record nn_Module := {
  m_arch : arch;
  m_backbone : weights;
  m_head : head;
  m_training : bool;
  m_device : device
}.

(** ** Figures (matplotlib) *)

(** The pieces of an f-string. *)
Inductive frag :=
  | Lit (s : string)
  | FmtStr (s : string)
  | FmtInt (n : nat)
  | FmtFloat (q : Q)
  | FmtRound (q : Q) (ndigits : Z).

Record line := {
  xdata : list nat;
  ydata : list Q;
  fmt : string;
  label : string;
  markevery : option (list nat)
}.

Record annotation := {
  ann_text : list frag;
  ann_xy : nat * Q;
  ann_xytext : nat * Q
}.

Record axes := {
  lines : list line;
  annotations : list annotation;
  xlabel : string;
  ylabel : string;
  grid : bool;
  legend : list string;
  ylim_top : option Q
}.

Record figure := {
  ax_left : axes;
  ax_right : axes;
  title : list frag
}.

Definition new_axes : axes :=
  {| lines := []; annotations := []; xlabel := ""; ylabel := "";
     grid := false; legend := []; ylim_top := None |}.

Definition ax_plot (ax : axes) (l : line) : axes :=
  {| lines := lines ax ++ [l]; annotations := annotations ax;
     xlabel := xlabel ax; ylabel := ylabel ax; grid := grid ax;
     legend := legend ax; ylim_top := ylim_top ax |}.

Definition ax_annotate (ax : axes) (a : annotation) : axes :=
  {| lines := lines ax; annotations := annotations ax ++ [a];
     xlabel := xlabel ax; ylabel := ylabel ax; grid := grid ax;
     legend := legend ax; ylim_top := ylim_top ax |}.

Definition ax_set_xlabel (ax : axes) (s : string) : axes :=
  {| lines := lines ax; annotations := annotations ax;
     xlabel := s; ylabel := ylabel ax; grid := grid ax;
     legend := legend ax; ylim_top := ylim_top ax |}.

Definition ax_set_ylabel (ax : axes) (s : string) : axes :=
  {| lines := lines ax; annotations := annotations ax;
     xlabel := xlabel ax; ylabel := s; grid := grid ax;
     legend := legend ax; ylim_top := ylim_top ax |}.

Definition ax_grid (ax : axes) : axes :=
  {| lines := lines ax; annotations := annotations ax;
     xlabel := xlabel ax; ylabel := ylabel ax; grid := true;
     legend := legend ax; ylim_top := ylim_top ax |}.

Definition ax_legend (ax : axes) (labels : list string) : axes :=
  {| lines := lines ax; annotations := annotations ax;
     xlabel := xlabel ax; ylabel := ylabel ax; grid := grid ax;
     legend := labels; ylim_top := ylim_top ax |}.

Definition ax_set_ylim_ymax (ax : axes) (top : Q) : axes :=
  {| lines := lines ax; annotations := annotations ax;
     xlabel := xlabel ax; ylabel := ylabel ax; grid := grid ax;
     legend := legend ax; ylim_top := Some top |}.

(** [ax.get_legend_handles_labels()]: the labels of the lines drawn. *)
Definition get_legend_labels (ax : axes) : list string := map label (lines ax).

(** ** The world: the [Models] object, the file system, what was done *)

Record Models := {
  root_folder : Path;
  download_folder : Path;
  size_tuple : Z * Z;
  self_device : device;
  model_weights : gmap string pyval
}.

Inductive file :=
  | CheckpointFile (ck : gmap string pyval)
  | ImageFile (fig : figure).

Inductive event :=
  | EvLoad (path : string)
  | EvSavefig (path : string)
  | EvDownload (dataset : string) (dir : string)
  | EvPrint (text : list frag).

(** What lies outside the program and is taken as given: the directories
    of the disk (the file map below holds plain files only) and the dataset
    host.
    - [can_create p]: the directory in which path [p] lies exists, so
      that an entry can be created at [p] (permissions and disk space are
      taken to suffice);
    - [is_directory p]: [p] is an existing directory;
    - [kaggle_download]: what [kaggle.api.dataset_download_files] does when
      called: it raises, or it delivers these members of the archive. *)
Record outside := {
  can_create : string -> bool;
  is_directory : string -> bool;
  kaggle_download : result (list (string * file))
}.

Record world := {
  self : Models;
  fs : gmap string file;
  env : outside;
  trace : list event
}.

(** ** The monad of Python code: state that survives exceptions *)

Definition M (A : Type) : Type := world -> result A * world.

Definition ret {A} (a : A) : M A := fun w => (Ok a, w).

Definition raise {A} (e : exn) : M A := fun w => (Raise e, w).

Definition bind {A B} (m : M A) (f : A -> M B) : M B :=
  fun w =>
    match m w with
    | (Ok a, w') => f a w'
    | (Raise e, w') => (Raise e, w')
    end.

Definition lift {A} (r : result A) : M A := fun w => (r, w).

Notation "x <- m ;; f" := (bind m (fun x => f))
  (at level 100, m at next level, right associativity).
Notation "m ;;; f" := (bind m (fun _ => f))
  (at level 100, right associativity).

Definition log (e : event) : M unit :=
  fun w => (Ok tt, {| self := self w; fs := fs w;
                      env := env w;
                      trace := trace w ++ [e] |}).

Definition write_file (path : string) (f : file) : M unit :=
  fun w => (Ok tt, {| self := self w; fs := <[path := f]> (fs w);
                      env := env w;
                      trace := trace w |}).

Definition get_self : M Models := fun w => (Ok (self w), w).

(** [self.model_weights[name] = v] *)
Definition set_model_weight (name : string) (v : pyval) : M unit :=
  fun w =>
    (Ok tt,
     {| self := {| root_folder := root_folder (self w);
                   download_folder := download_folder (self w);
                   size_tuple := size_tuple (self w);
                   self_device := self_device (self w);
                   model_weights := <[name := v]> (model_weights (self w)) |};
        fs := fs w; env := env w; trace := trace w |}).

(** [torch.load(path)] *)
Definition torch_load (path : string) : M (gmap string pyval) :=
  log (EvLoad path) ;;;
  fun w =>
    match fs w !! path with
    | None => (Raise (FileNotFoundError path), w)
    | Some (CheckpointFile ck) => (Ok ck, w)
    | Some (ImageFile _) => (Raise (UnpicklingError path), w)
    end.

(** [d[key]] on a dictionary *)
Definition getitem (d : gmap string pyval) (key : string) : M pyval :=
  match d !! key with
  | Some v => ret v
  | None => raise (KeyError key)
  end.

(** A value used as a list of floats ([len], [max], [.index], plotting). *)
Definition as_list (v : pyval) (e : exn) : M (list Q) :=
  match v with
  | PyList l => ret l
  | _ => raise e
  end.

(** [plt.savefig(path)] on a disk where every path can be created: the
    image is written. The statements about what is drawn use it. *)
Definition savefig (path : string) (fig : figure) : M unit :=
  log (EvSavefig path) ;;; write_file path (ImageFile fig).

(** [plt.savefig(path)] as the operating system lets it: the call is
    recorded, and the image is written when an entry can be created at the
    path; otherwise the error of opening the file is raised and nothing is
    written. *)
Definition savefig_os (path : string) (fig : figure) : M unit :=
  log (EvSavefig path) ;;;
  fun w =>
    if can_create (env w) path then write_file path (ImageFile fig) w
    else (Raise (FileNotFoundError path), w).

(** ** torchvision and torch.nn calls used by [Models] *)

Global Instance arch_eq_dec : EqDecision arch.
Proof. solve_decision. Defined.

(** [models.<arch>(weights=...)]: the pretrained network as torchvision
    builds it. Only the classification head is spelled out; the feature
    extractor is one block of pretrained parameters. A new module is in
    training mode and on the CPU. *)
Definition tv_head (a : arch) (w : string) : head :=
  match a with
  | efficientnet_b0 => Classifier [Dropout; Linear 1280 1000 (Pretrained w)]
  | efficientnet_b1 => Classifier [Dropout; Linear 1280 1000 (Pretrained w)]
  | mobilenet_v3_large =>
      Classifier [Linear 960 1280 (Pretrained w); Hardswish; Dropout;
                  Linear 1280 1000 (Pretrained w)]
  | shufflenet_v2_x2_0 => Fc (Linear 2048 1000 (Pretrained w))
  end.

(** [models.<a>(weights=w)]: the pretrained parameters named [w] are taken
    to be at hand (in torchvision's cache or fetched), so that the call
    gives the module. *)
Definition tv_model (a : arch) (w : string) : nn_Module :=
  {| m_arch := a; m_backbone := Pretrained w; m_head := tv_head a w;
     m_training := true; m_device := cpu |}.

(** [nn.Linear(i, o)]: a tensor of negative size cannot be created. Memory
    is taken to suffice for the sizes asked for; the statements that a call
    returns keep to sizes up to that of the layer replaced. *)
Definition nn_Linear (i o : Z) : M layer :=
  if (i <? 0) || (o <? 0) then raise RuntimeError
  else ret (Linear i o RandomInit).

(** [l.in_features] *)
Definition in_features (l : layer) : M Z :=
  match l with
  | Linear i _ _ => ret i
  | _ => raise AttributeError
  end.

Definition with_head (m : nn_Module) (h : head) : nn_Module :=
  {| m_arch := m_arch m; m_backbone := m_backbone m; m_head := h;
     m_training := m_training m; m_device := m_device m |}.

(** [model.classifier[i]] *)
Definition classifier_getitem (m : nn_Module) (i : nat) : M layer :=
  match m_head m with
  | Classifier ls =>
      match ls !! i with
      | Some l => ret l
      | None => raise IndexError
      end
  | Fc _ => raise AttributeError
  end.

(** [model.classifier[i] = l] *)
Definition classifier_setitem (m : nn_Module) (i : nat) (l : layer)
  : M nn_Module :=
  match m_head m with
  | Classifier ls =>
      if decide (i < length ls)%nat
      then ret (with_head m (Classifier (<[i := l]> ls)))
      else raise IndexError
  | Fc _ => raise AttributeError
  end.

(** [model.fc] *)
Definition get_fc (m : nn_Module) : M layer :=
  match m_head m with
  | Fc l => ret l
  | Classifier _ => raise AttributeError
  end.

(** [model.fc = l] *)
Definition set_fc (m : nn_Module) (l : layer) : nn_Module :=
  with_head m (Fc l).

(** The last layer of the head: the one that produces the class scores. *)
Definition final_layer (m : nn_Module) : option layer :=
  match m_head m with
  | Classifier ls => last ls
  | Fc l => Some l
  end.

Definition out_features (l : layer) : option Z :=
  match l with
  | Linear _ o _ => Some o
  | _ => None
  end.

(** The output dimension of the final classification layer. *)
Definition output_dim (m : nn_Module) : option Z :=
  match final_layer m with
  | Some l => out_features l
  | None => None
  end.

Definition reload_layer (v : positive) (l : layer) : layer :=
  match l with
  | Linear i o _ => Linear i o (LoadedFrom v)
  | other => other
  end.

Definition reload_head (v : positive) (h : head) : head :=
  match h with
  | Classifier ls => Classifier (map (reload_layer v) ls)
  | Fc l => Fc (reload_layer v l)
  end.

(** The state dict has the parameter names and shapes of the module. *)
Definition sd_fits (m : nn_Module) (sd : state_dict) : bool :=
  bool_decide (sd_arch sd = m_arch m) &&
  match final_layer m with
  | Some (Linear i o _) => (sd_head_in sd =? i) && (sd_head_out sd =? o)
  | _ => false
  end.

(** [model.load_state_dict(v)] (strict): the values are copied into the
    existing parameters; other names or shapes are a RuntimeError, an
    argument that is no state dict a TypeError. *)
Definition load_state_dict (m : nn_Module) (v : pyval) : M nn_Module :=
  match v with
  | PyStateDict sd =>
      if sd_fits m sd
      then ret {| m_arch := m_arch m;
                  m_backbone := LoadedFrom (sd_values sd);
                  m_head := reload_head (sd_values sd) (m_head m);
                  m_training := m_training m; m_device := m_device m |}
      else raise RuntimeError
  | _ => raise TypeError
  end.

(** [model.eval()] *)
Definition eval (m : nn_Module) : nn_Module :=
  {| m_arch := m_arch m; m_backbone := m_backbone m; m_head := m_head m;
     m_training := false; m_device := m_device m |}.

(** [model.to(d)] *)
Definition to (m : nn_Module) (d : device) : nn_Module :=
  {| m_arch := m_arch m; m_backbone := m_backbone m; m_head := m_head m;
     m_training := m_training m; m_device := d |}.

(** ** class Models *)

(** [Models.__init__]; [file] is the module's [__file__], [credentials]
    says whether [kaggle.api.authenticate()] succeeds and [cuda_available]
    is [torch.cuda.is_available()]. *)
Definition Models_init (file : Path) (credentials cuda_available : bool)
  : result Models :=
  if credentials then
    let root := parent (parent (parent file)) in
    Ok {| root_folder := root;
          download_folder := truediv (truediv root "data") "models";
          size_tuple := (224, 224);
          self_device := if cuda_available then cuda else cpu;
          model_weights := ∅ |}
  else Raise AuthenticationError.

(** A fresh process: the object just built, the files on disk, what lies
    outside, and nothing done yet. *)
Definition start (s : Models) (files : gmap string file)
    (surroundings : outside) : world :=
  {| self := s; fs := files; env := surroundings; trace := [] |}.

Fixpoint unzip (dir : string) (archive : list (string * file)) : M unit :=
  match archive with
  | [] => ret tt
  | (name, f) :: rest =>
      write_file (dir +:+ "/" +:+ name) f ;;; unzip dir rest
  end.

(** [p.mkdir(exist_ok=True)], without [parents]: an existing directory is
    accepted, a plain file at the path is a FileExistsError, and a missing
    parent a FileNotFoundError. *)
Definition mkdir_exist_ok (p : string) : M unit :=
  fun w =>
    if is_directory (env w) p then (Ok tt, w)
    else match fs w !! p with
         | Some _ => (Raise (FileExistsError p), w)
         | None =>
             if can_create (env w) p then (Ok tt, w)
             else (Raise (FileNotFoundError p), w)
         end.

(** [kaggle.api.dataset_download_files(dataset, path=dir, unzip=True)]: the
    call is recorded; then the client raises or unpacks what it got into
    [dir]. *)
Definition dataset_download_files (dataset dir : string) : M unit :=
  log (EvDownload dataset dir) ;;;
  members <- (fun w => (kaggle_download (env w), w)) ;;
  unzip dir members.

Definition download_from_kaggle : M unit :=
  s <- get_self ;;
  mkdir_exist_ok (str (download_folder s)) ;;;
  dataset_download_files "dzmitrypihulski/models-for-hackathon"
                         (str (download_folder s)).

Definition create_new_efficientnet_b0 (num_classes : Z) : M nn_Module :=
  let model := tv_model efficientnet_b0 "DEFAULT" in
  old <- classifier_getitem model 1 ;;
  i <- in_features old ;;
  l <- nn_Linear i num_classes ;;
  model <- classifier_setitem model 1 l ;;
  s <- get_self ;;
  ret (to model (self_device s)).

Definition create_new_efficientnet_b1 (num_classes : Z) : M nn_Module :=
  let model := tv_model efficientnet_b1 "IMAGENET1K_V2" in
  old <- classifier_getitem model 1 ;;
  i <- in_features old ;;
  l <- nn_Linear i num_classes ;;
  model <- classifier_setitem model 1 l ;;
  s <- get_self ;;
  ret (to model (self_device s)).

Definition create_new_mobilenet_v3_large (num_classes : Z) : M nn_Module :=
  let model := tv_model mobilenet_v3_large "IMAGENET1K_V2" in
  old <- classifier_getitem model 3 ;;
  i <- in_features old ;;
  l <- nn_Linear i num_classes ;;
  model <- classifier_setitem model 3 l ;;
  s <- get_self ;;
  ret (to model (self_device s)).

Definition create_new_shufflenet_v2_x2_0 (num_classes : Z) : M nn_Module :=
  let model := tv_model shufflenet_v2_x2_0 "DEFAULT" in
  old <- get_fc model ;;
  i <- in_features old ;;
  l <- nn_Linear i num_classes ;;
  let model := set_fc model l in
  s <- get_self ;;
  ret (to model (self_device s)).

(** The part the four [prepare_finetuned_*] methods have in common, from
    [torch.load] to the return. *)
Definition restore_finetuned (model : nn_Module) (model_name : string)
  : M nn_Module :=
  s <- get_self ;;
  checkpoint <-
    torch_load (str (download_folder s)
                +:+ ("/" +:+ model_name +:+ "_best_f1.pth")) ;;
  sd <- getitem checkpoint "model_state_dict" ;;
  model <- load_state_dict model sd ;;
  let model := eval model in
  best <- getitem checkpoint "best_val_f1" ;;
  set_model_weight model_name best ;;;
  s <- get_self ;;
  ret (to model (self_device s)).

Definition prepare_finetuned_efficientnet_b0
    (model_name : string) (num_classes : Z) : M nn_Module :=
  let model := tv_model efficientnet_b0 "DEFAULT" in
  old <- classifier_getitem model 1 ;;
  i <- in_features old ;;
  l <- nn_Linear i num_classes ;;
  model <- classifier_setitem model 1 l ;;
  restore_finetuned model model_name.

Definition prepare_finetuned_efficientnet_b1
    (model_name : string) (num_classes : Z) : M nn_Module :=
  let model := tv_model efficientnet_b1 "IMAGENET1K_V2" in
  old <- classifier_getitem model 1 ;;
  i <- in_features old ;;
  l <- nn_Linear i num_classes ;;
  model <- classifier_setitem model 1 l ;;
  restore_finetuned model model_name.

Definition prepare_finetuned_mobilenet_v3_large
    (model_name : string) (num_classes : Z) : M nn_Module :=
  let model := tv_model mobilenet_v3_large "IMAGENET1K_V2" in
  old <- classifier_getitem model 3 ;;
  i <- in_features old ;;
  l <- nn_Linear i num_classes ;;
  model <- classifier_setitem model 3 l ;;
  restore_finetuned model model_name.

Definition prepare_finetuned_shufflenet_v2_x2_0
    (model_name : string) (num_classes : Z) : M nn_Module :=
  let model := tv_model shufflenet_v2_x2_0 "DEFAULT" in
  old <- get_fc model ;;
  i <- in_features old ;;
  l <- nn_Linear i num_classes ;;
  let model := set_fc model l in
  restore_finetuned model model_name.

(** ** Plots *)

(** [seq.index(max(seq))] and [seq.index(min(seq))] *)
Definition index_of_max (l : list Q) : M nat :=
  m <- lift (py_max l) ;; lift (py_index l m).

Definition index_of_min (l : list Q) : M nat :=
  m <- lift (py_min l) ;; lift (py_index l m).

(** [Models.plot_training_metrics]; [save] stands for [plt.savefig]. *)
Definition Models_plot_training_metrics_via
    (save : string -> figure -> M unit)
    (checkpoint_path name_of_the_net : string) : M unit :=
  checkpoint <- torch_load checkpoint_path ;;
  losses_val <- getitem checkpoint "val_loss" ;;
  losses_train <- getitem checkpoint "train_loss" ;;
  f1_metric_val <- getitem checkpoint "f1_metric_val" ;;
  let ax1 := new_axes in
  losses_train <- as_list losses_train TypeError ;;
  let ax1 :=
    ax_plot ax1 {| xdata := arange1 (length losses_train);
                   ydata := losses_train; fmt := "r";
                   label := "Train loss"; markevery := None |} in
  losses_val <- as_list losses_val TypeError ;;
  let ax1 :=
    ax_plot ax1 {| xdata := arange1 (length losses_val);
                   ydata := losses_val; fmt := "-g";
                   label := "Val loss"; markevery := None |} in
  let ax1 := ax_set_xlabel ax1 "Epoch" in
  let ax1 := ax_set_ylabel ax1 "CrossEntropyLoss" in
  let ax1 := ax_grid ax1 in
  f1_metric_val <- as_list f1_metric_val AttributeError ;;
  i <- index_of_max f1_metric_val ;;
  let marker_on := [i] in
  let ax2 := new_axes in
  let ax2 :=
    ax_plot ax2 {| xdata := arange1 (length f1_metric_val);
                   ydata := f1_metric_val; fmt := "-bD";
                   label := "F1 Metric (Val)";
                   markevery := Some marker_on |} in
  let ax2 := ax_set_ylabel ax2 "f1_metric_val" in
  i_text <- index_of_max f1_metric_val ;;
  m_text <- lift (py_max f1_metric_val) ;;
  i_xy <- index_of_max f1_metric_val ;;
  m_xy <- lift (py_max f1_metric_val) ;;
  i_xytext <- index_of_max f1_metric_val ;;
  m_xytext <- lift (py_max f1_metric_val) ;;
  let ax2 :=
    ax_annotate ax2
      {| ann_text := [Lit "Max F1 score after "; FmtInt (i_text + 1);
                      Lit " epochs, equals: "; FmtRound m_text 3];
         ann_xy := ((i_xy + 1)%nat, m_xy);
         ann_xytext := ((i_xytext + 1)%nat, (m_xytext - (15 # 1000))%Q) |} in
  let ax1 := ax_legend ax1 (get_legend_labels ax1 ++ get_legend_labels ax2) in
  m_lim <- lift (py_max f1_metric_val) ;;
  let ax2 := ax_set_ylim_ymax ax2 (m_lim * (1015 # 1000))%Q in
  let fig :=
    {| ax_left := ax1; ax_right := ax2;
       title := [FmtStr name_of_the_net;
                 Lit " - Train and Val loss, F1 Metric after ";
                 FmtInt (length losses_train); Lit " epochs"] |} in
  s <- get_self ;;
  save (str (root_folder s)
        +:+ ("/data/images/" +:+ name_of_the_net +:+ ".png")) fig.

Definition Models_plot_training_metrics : string -> string -> M unit :=
  Models_plot_training_metrics_via savefig.

Definition Models_plot_training_metrics_os : string -> string -> M unit :=
  Models_plot_training_metrics_via savefig_os.

(** [view_model.plot_training_metrics]; a caller that passes no
    [output_dir] gets [default_output_dir]. *)
Definition default_output_dir : string := "src/data/images".

Definition plot_training_metrics_via
    (save : string -> figure -> M unit)
    (checkpoint_path net_name : string) (output_dir : string) : M unit :=
  checkpoint <- torch_load checkpoint_path ;;
  losses_val <- getitem checkpoint "val_loss" ;;
  losses_train <- getitem checkpoint "train_loss" ;;
  f1_metric_val <- getitem checkpoint "f1_metric_val" ;;
  losses_val <- as_list losses_val AttributeError ;;
  i <- index_of_min losses_val ;;
  let marker_on := [i] in
  let ax1 := new_axes in
  losses_train <- as_list losses_train TypeError ;;
  let ax1 :=
    ax_plot ax1 {| xdata := arange1 (length losses_train);
                   ydata := losses_train; fmt := "r";
                   label := "Train loss"; markevery := None |} in
  let ax1 :=
    ax_plot ax1 {| xdata := arange1 (length losses_val);
                   ydata := losses_val; fmt := "-gD";
                   label := "Test loss"; markevery := Some marker_on |} in
  f1_metric_val <- as_list f1_metric_val AttributeError ;;
  i_text <- index_of_max f1_metric_val ;;
  m_text <- lift (py_max f1_metric_val) ;;
  i_xy <- index_of_min losses_val ;;
  m_xy <- lift (py_min losses_val) ;;
  i_xytext <- index_of_min losses_val ;;
  m_xytext <- lift (py_min losses_val) ;;
  let ax1 :=
    ax_annotate ax1
      {| ann_text := [Lit "Max F1 score after "; FmtInt (i_text + 1);
                      Lit " epochs, equals: "; FmtFloat m_text];
         ann_xy := ((i_xy + 1)%nat, m_xy);
         ann_xytext := ((i_xytext + 1)%nat, (m_xytext + (5 # 100))%Q) |} in
  let ax1 := ax_set_xlabel ax1 "Epoch" in
  let ax1 := ax_set_ylabel ax1 "CrossEntropyLoss" in
  let ax1 := ax_grid ax1 in
  let ax2 := new_axes in
  let ax2 :=
    ax_plot ax2 {| xdata := arange1 (length f1_metric_val);
                   ydata := f1_metric_val; fmt := "blue";
                   label := "F1 Metric (Val)"; markevery := None |} in
  let ax2 := ax_set_ylabel ax2 "f1_metric_val" in
  let ax1 := ax_legend ax1 (get_legend_labels ax1 ++ get_legend_labels ax2) in
  let fig :=
    {| ax_left := ax1; ax_right := ax2;
       title := [Lit "Train and Val loss, F1 Metric after ";
                 FmtInt (length losses_train); Lit " epochs"] |} in
  let output_path := output_dir +:+ "/" +:+ net_name +:+ ".png" in
  save output_path fig ;;;
  log (EvPrint [Lit "Plot saved to "; FmtStr output_path]).

Definition plot_training_metrics : string -> string -> string -> M unit :=
  plot_training_metrics_via savefig.

Definition plot_training_metrics_os : string -> string -> string -> M unit :=
  plot_training_metrics_via savefig_os.

(** ** Sequences of calls on one [Models] object *)

Inductive op :=
  | DownloadFromKaggle
  | CreateNew (a : arch) (num_classes : Z)
  | PrepareFinetuned (a : arch) (model_name : string) (num_classes : Z)
  | PlotTrainingMetrics (checkpoint_path name_of_the_net : string).

Definition create_new (a : arch) : Z -> M nn_Module :=
  match a with
  | efficientnet_b0 => create_new_efficientnet_b0
  | efficientnet_b1 => create_new_efficientnet_b1
  | mobilenet_v3_large => create_new_mobilenet_v3_large
  | shufflenet_v2_x2_0 => create_new_shufflenet_v2_x2_0
  end.

Definition prepare_finetuned (a : arch) : string -> Z -> M nn_Module :=
  match a with
  | efficientnet_b0 => prepare_finetuned_efficientnet_b0
  | efficientnet_b1 => prepare_finetuned_efficientnet_b1
  | mobilenet_v3_large => prepare_finetuned_mobilenet_v3_large
  | shufflenet_v2_x2_0 => prepare_finetuned_shufflenet_v2_x2_0
  end.

(** One call, its return value dropped. *)
Definition call (o : op) : M unit :=
  match o with
  | DownloadFromKaggle => download_from_kaggle
  | CreateNew a k => create_new a k ;;; ret tt
  | PrepareFinetuned a m k => prepare_finetuned a m k ;;; ret tt
  | PlotTrainingMetrics p n => Models_plot_training_metrics p n
  end.

(** A script of calls; an exception is not caught and ends the script. *)
Fixpoint calls (os : list op) : M unit :=
  match os with
  | [] => ret tt
  | o :: rest => call o ;;; calls rest
  end.

(** * Notions used in the statements *)

(** ** The first position of the maximum and of the minimum *)

(** [i] is the earliest position that holds a greatest item of [l]. *)
Definition is_first_argmax (l : list Q) (i : nat) : Prop :=
  exists y, l !! i = Some y /\
    (forall j z, l !! j = Some z -> (z <= y)%Q) /\
    (forall j z, (j < i)%nat -> l !! j = Some z -> (z < y)%Q).

Definition is_first_argmin (l : list Q) (i : nat) : Prop :=
  exists y, l !! i = Some y /\
    (forall j z, l !! j = Some z -> (y <= z)%Q) /\
    (forall j z, (j < i)%nat -> l !! j = Some z -> (y < z)%Q).

(** ** What a saved figure shows *)

(** The marked points: the label of the line and the position in its data. *)
Definition markers (ax : axes) : list (string * nat) :=
  flat_map (fun l => map (fun k => (label l, k)) (default [] (markevery l)))
           (lines ax).

Definition fig_markers (fig : figure) : list (string * nat) :=
  markers (ax_left fig) ++ markers (ax_right fig).

Definition fig_annotations (fig : figure) : list annotation :=
  annotations (ax_left fig) ++ annotations (ax_right fig).

(** The epochs (x coordinates) the annotation arrows point at. *)
Definition arrow_epochs (fig : figure) : list nat :=
  map (fun a => fst (ann_xy a)) (fig_annotations fig).

Definition frag_ints (t : list frag) : list nat :=
  flat_map (fun f => match f with FmtInt n => [n] | _ => [] end) t.

(** The epoch numbers printed in the annotation texts. *)
Definition text_epochs (fig : figure) : list nat :=
  flat_map (fun a => frag_ints (ann_text a)) (fig_annotations fig).

(** The curves drawn, left axis first: the epochs and the values. *)
Definition curves (fig : figure) : list (list nat * list Q) :=
  map (fun l => (xdata l, ydata l))
      (lines (ax_left fig) ++ lines (ax_right fig)).

(** Marker, arrow and text all sit at the first maximum of [f1]; the marker
    is a position in the data, the arrow and the text count epochs from 1. *)
Definition marks_best_f1 (f1 : list Q) (fig : figure) : Prop :=
  exists i, is_first_argmax f1 i /\
    map snd (fig_markers fig) = [i] /\
    arrow_epochs fig = [S i] /\
    text_epochs fig = [S i].

(** ** Checkpoints *)

(** The checkpoint holds the three per-epoch sequences. *)
Definition has_metrics (ck : gmap string pyval) (lv lt f1 : list Q) : Prop :=
  ck !! "val_loss" = Some (PyList lv) /\
  ck !! "train_loss" = Some (PyList lt) /\
  ck !! "f1_metric_val" = Some (PyList f1).

(** The world after a plot was saved at [out]: one load, one save. *)
Definition after_plot (w : world) (path out : string) (fig : figure)
    (printed : list event) : world :=
  {| self := self w; fs := <[out := ImageFile fig]> (fs w);
     env := env w;
     trace := trace w ++ [EvLoad path; EvSavefig out] ++ printed |}.

(** Position [j] holds a greatest item of [l]. *)
Definition attains_max (l : list Q) (j : nat) : Prop :=
  exists y, l !! j = Some y /\ forall k z, l !! k = Some z -> (z <= y)%Q.

(** ** A sample run *)

Module Sample.

Definition module_file : Path :=
  {| absolute := true;
     parts := ["home"; "u"; "proj"; "src"; "utils"; "models.py"] |}.

Definition val_loss : list Q := [9 # 10; 5 # 10; 3 # 10].
Definition train_loss : list Q := [8 # 10; 6 # 10; 4 # 10].
Definition f1 : list Q := [3 # 10; 8 # 10; 6 # 10].

(** The best F1 is reached twice, at epochs 2 and 3. *)
Definition f1_tie : list Q := [3 # 10; 8 # 10; 16 # 20].

Definition weights_b0 : state_dict :=
  {| sd_arch := efficientnet_b0; sd_head_in := 1280; sd_head_out := 8;
     sd_values := 7%positive |}.

Definition checkpoint (f1s : list Q) (best : Q) : gmap string pyval :=
  <["val_loss" := PyList val_loss]>
  (<["train_loss" := PyList train_loss]>
  (<["f1_metric_val" := PyList f1s]>
  (<["best_val_f1" := PyFloat best]>
  (<["model_state_dict" := PyStateDict weights_b0]> ∅)))).

(** A checkpoint whose training losses were not recorded. *)
Definition no_train_loss : gmap string pyval :=
  <["val_loss" := PyList val_loss]>
  (<["train_loss" := PyList []]>
  (<["f1_metric_val" := PyList f1]> ∅)).

Definition one_epoch : gmap string pyval :=
  <["val_loss" := PyList [9 # 10]]>
  (<["train_loss" := PyList [8 # 10]]>
  (<["f1_metric_val" := PyList [3 # 10]]> ∅)).

Definition me : Models :=
  {| root_folder := {| absolute := true; parts := ["home"; "u"; "proj"] |};
     download_folder :=
       {| absolute := true; parts := ["home"; "u"; "proj"; "data"; "models"] |};
     size_tuple := (224, 224);
     self_device := cpu;
     model_weights := ∅ |}.

Definition files : gmap string file :=
  <["/home/u/proj/data/models/effb0_best_f1.pth" :=
      CheckpointFile (checkpoint f1 (8 # 10))]>
  (<["/home/u/proj/data/models/tie_best_f1.pth" :=
      CheckpointFile (checkpoint f1_tie (8 # 10))]>
  (<["/home/u/proj/data/models/one_best_f1.pth" :=
      CheckpointFile one_epoch]>
  (<["/home/u/proj/data/models/short_best_f1.pth" :=
      CheckpointFile no_train_loss]> ∅))).

(** Every directory is there, and the host has nothing to deliver. *)
Definition disk : outside :=
  {| can_create := fun _ => true; is_directory := fun _ => true;
     kaggle_download := Ok [] |}.

Definition w : world := start me files disk.

(** The same world with an older entry for ["effb0"] in the registry. *)
Definition stale : world :=
  snd (set_model_weight "effb0" (PyFloat (1 # 10)) w).

Definition script : list op :=
  [CreateNew shufflenet_v2_x2_0 8;
   PrepareFinetuned efficientnet_b0 "effb0" 8;
   PlotTrainingMetrics "/home/u/proj/data/models/effb0_best_f1.pth" "net";
   DownloadFromKaggle;
   PrepareFinetuned efficientnet_b0 "tie" 8].

End Sample.

(** ** Scripts and failures *)


(** The routines that read a checkpoint. *)
Inductive routine :=
  | Prepare (a : arch) (model_name : string) (num_classes : Z)
  | PlotMethod (checkpoint_path name_of_the_net : string)
  | PlotFunction (checkpoint_path net_name output_dir : string).

Definition run_routine (r : routine) : M unit :=
  match r with
  | Prepare a m k => prepare_finetuned a m k ;;; ret tt
  | PlotMethod p n => Models_plot_training_metrics p n
  | PlotFunction p n d => plot_training_metrics p n d
  end.

(** The checkpoint file a routine asks for. *)
Definition checkpoint_file (s : Models) (r : routine) : string :=
  match r with
  | Prepare _ m _ => str (download_folder s) +:+ "/" +:+ m +:+ "_best_f1.pth"
  | PlotMethod p _ => p
  | PlotFunction p _ _ => p
  end.

Definition is_plot (r : routine) : Prop :=
  match r with
  | Prepare _ _ _ => False
  | _ => True
  end.

(** The class count is one [nn.Linear] accepts. *)
Definition head_fits (r : routine) : Prop :=
  match r with
  | Prepare _ _ k => 0 <= k
  | _ => True
  end.

(** The network a preparation call has built when it reaches [torch.load]. *)
Definition resized (a : arch) (k : Z) : nn_Module :=
  match a with
  | efficientnet_b0 =>
      with_head (tv_model a "DEFAULT")
                (Classifier [Dropout; Linear 1280 k RandomInit])
  | efficientnet_b1 =>
      with_head (tv_model a "IMAGENET1K_V2")
                (Classifier [Dropout; Linear 1280 k RandomInit])
  | mobilenet_v3_large =>
      with_head (tv_model a "IMAGENET1K_V2")
                (Classifier [Linear 960 1280 (Pretrained "IMAGENET1K_V2");
                             Hardswish; Dropout; Linear 1280 k RandomInit])
  | shufflenet_v2_x2_0 =>
      with_head (tv_model a "DEFAULT") (Fc (Linear 2048 k RandomInit))
  end.

(** [underlying_failure w r e]: in world [w], the first operation of
    routine [r] that fails is one of those below, and it raises [e]. *)
Inductive underlying_failure (w : world) : routine -> exn -> Prop :=
  | missing_file r :
      head_fits r ->
      fs w !! checkpoint_file (self w) r = None ->
      underlying_failure w r (FileNotFoundError (checkpoint_file (self w) r))
  | missing_state_dict a m k ck :
      0 <= k ->
      fs w !! checkpoint_file (self w) (Prepare a m k)
        = Some (CheckpointFile ck) ->
      ck !! "model_state_dict" = None ->
      underlying_failure w (Prepare a m k) (KeyError "model_state_dict")
  | mismatched_state_dict a m k ck sd :
      0 <= k ->
      fs w !! checkpoint_file (self w) (Prepare a m k)
        = Some (CheckpointFile ck) ->
      ck !! "model_state_dict" = Some (PyStateDict sd) ->
      sd_fits (resized a k) sd = false ->
      underlying_failure w (Prepare a m k) RuntimeError
  | missing_best_val_f1 a m k ck sd :
      0 <= k ->
      fs w !! checkpoint_file (self w) (Prepare a m k)
        = Some (CheckpointFile ck) ->
      ck !! "model_state_dict" = Some (PyStateDict sd) ->
      sd_fits (resized a k) sd = true ->
      ck !! "best_val_f1" = None ->
      underlying_failure w (Prepare a m k) (KeyError "best_val_f1")
  | missing_val_loss r ck :
      is_plot r ->
      fs w !! checkpoint_file (self w) r = Some (CheckpointFile ck) ->
      ck !! "val_loss" = None ->
      underlying_failure w r (KeyError "val_loss")
  | missing_train_loss r ck :
      is_plot r ->
      fs w !! checkpoint_file (self w) r = Some (CheckpointFile ck) ->
      is_Some (ck !! "val_loss") ->
      ck !! "train_loss" = None ->
      underlying_failure w r (KeyError "train_loss")
  | missing_f1_metric_val r ck :
      is_plot r ->
      fs w !! checkpoint_file (self w) r = Some (CheckpointFile ck) ->
      is_Some (ck !! "val_loss") ->
      is_Some (ck !! "train_loss") ->
      ck !! "f1_metric_val" = None ->
      underlying_failure w r (KeyError "f1_metric_val")
  | empty_f1_metric_val r ck lv lt :
      is_plot r ->
      fs w !! checkpoint_file (self w) r = Some (CheckpointFile ck) ->
      has_metrics ck lv lt [] ->
      underlying_failure w r ValueError
  | empty_val_loss p n d ck lt f1 :
      fs w !! p = Some (CheckpointFile ck) ->
      has_metrics ck [] lt f1 ->
      underlying_failure w (PlotFunction p n d) ValueError.

(** A computation that leaves the [Models] object as it found it. *)
Definition keeps_self {A} (m : M A) : Prop :=
  forall w, self (snd (m w)) = self w.


(** ** Further notions: heads, arrows and archives *)

(** The number of input features of the final layer torchvision builds for
    an architecture; resizing the head keeps it. *)
Definition head_in_features (a : arch) : Z :=
  match final_layer (tv_model a "") with
  | Some (Linear i _ _) => i
  | _ => 0
  end.

(** The points the annotation arrows point at, and where the text boxes
    are put. *)
Definition arrow_tips (fig : figure) : list (nat * Q) :=
  map ann_xy (fig_annotations fig).

Definition text_anchors (fig : figure) : list (nat * Q) :=
  map ann_xytext (fig_annotations fig).

(** The texts of the annotations. *)
Definition annotation_texts (fig : figure) : list (list frag) :=
  map ann_text (fig_annotations fig).


(** ** Scripts whose caller catches every exception *)

(** The world after every call of the script was made, each exception
    being caught by the caller. *)
Fixpoint attempts (os : list op) (w : world) : world :=
  match os with
  | [] => w
  | o :: rest => attempts rest (snd (call o w))
  end.


(** The checkpoint at the place a preparation call for [m] reads is one
    the call can restore into architecture [a] with [k] classes. *)
Definition loadable (w : world) (a : arch) (m : string) (k : Z)
    (best : pyval) : Prop :=
  0 <= k /\
  exists ck sd,
    fs w !! (str (download_folder (self w)) +:+ "/" +:+ m +:+ "_best_f1.pth")
      = Some (CheckpointFile ck) /\
    ck !! "model_state_dict" = Some (PyStateDict sd) /\
    sd_arch sd = a /\
    sd_head_in sd = head_in_features a /\
    sd_head_out sd = k /\
    ck !! "best_val_f1" = Some best.

(** Marker and text sit at the earliest epoch with the greatest F1. *)
Definition marks_earliest_best (f1 : list Q) (fig : figure) : Prop :=
  exists i,
    attains_max f1 i /\ (forall j, attains_max f1 j -> (i <= j)%nat) /\
    map snd (fig_markers fig) = [i] /\
    text_epochs fig = [S i].

(** ** One checkpoint for each architecture *)

Module Zoo.

Definition name_of (a : arch) : string :=
  match a with
  | efficientnet_b0 => "b0"
  | efficientnet_b1 => "b1"
  | mobilenet_v3_large => "mnet"
  | shufflenet_v2_x2_0 => "shuf"
  end.

Definition weights_of (a : arch) : state_dict :=
  {| sd_arch := a; sd_head_in := head_in_features a; sd_head_out := 8;
     sd_values := 11%positive |}.

Definition checkpoint (a : arch) : gmap string pyval :=
  <["model_state_dict" := PyStateDict (weights_of a)]>
  (<["best_val_f1" := PyFloat (9 # 10)]>
  (<["val_loss" := PyList Sample.val_loss]>
  (<["train_loss" := PyList Sample.train_loss]>
  (<["f1_metric_val" := PyList Sample.f1]> ∅)))).

Definition files : gmap string file :=
  <["/home/u/proj/data/models/b0_best_f1.pth" :=
      CheckpointFile (checkpoint efficientnet_b0)]>
  (<["/home/u/proj/data/models/b1_best_f1.pth" :=
      CheckpointFile (checkpoint efficientnet_b1)]>
  (<["/home/u/proj/data/models/mnet_best_f1.pth" :=
      CheckpointFile (checkpoint mobilenet_v3_large)]>
  (<["/home/u/proj/data/models/shuf_best_f1.pth" :=
      CheckpointFile (checkpoint shufflenet_v2_x2_0)]> ∅))).

Definition w : world := start Sample.me files Sample.disk.

(** The same world with an older entry for every name. *)
Definition stale : world :=
  snd (set_model_weight "b0" (PyFloat (1 # 10))
    (snd (set_model_weight "b1" (PyFloat (1 # 10))
      (snd (set_model_weight "mnet" (PyFloat (1 # 10))
        (snd (set_model_weight "shuf" (PyFloat (1 # 10)) w))))))).

(** A disk on which only the models folder exists: nothing can be created
    under [data/images] or under [plots]. *)
Definition models_only : outside :=
  {| can_create := String.prefix "/home/u/proj/data/models/";
     is_directory := String.eqb "/home/u/proj/data/models";
     kaggle_download := Ok [] |}.

Definition w_models_only : world := start Sample.me files models_only.

(** A script in which one checkpoint is missing. *)
Definition script_with_failure : list op :=
  [PrepareFinetuned efficientnet_b0 "b0" 8;
   PrepareFinetuned efficientnet_b1 "absent" 8].

End Zoo.

(** The world after [plt.savefig(out)] was called and could not create the
    file: the load and the call are on record, nothing is written. *)
Definition after_failed_save (w : world) (path out : string) : world :=
  {| self := self w; fs := fs w; env := env w;
     trace := trace w ++ [EvLoad path; EvSavefig out] |}.

(** * Properties *)

(** ** Built-ins on lists *)

Section ListBuiltins.

Implicit Types (l : list Q) (v acc x y : Q) (i j k : nat).

Lemma max_from_bounds acc l :
  (acc <= max_from acc l)%Q /\
  (forall y, y ∈ l -> (y <= max_from acc l)%Q) /\
  (max_from acc l = acc \/ max_from acc l ∈ l).
Proof.
  revert acc; induction l as [|x t IH]; intros acc; simpl.
  - split; [apply Qle_refl|]. split; [|by left].
    intros y Hy. by apply elem_of_nil in Hy.
  - destruct (x ?= acc)%Q eqn:Hc.
    + destruct (IH acc) as (Ha & Hall & Hin).
      apply Qeq_alt in Hc.
      split; [done|]. split.
      * intros y [->|Hy]%elem_of_cons; [by rewrite Hc | by apply Hall].
      * destruct Hin as [->|Hin]; [by left | right; by apply elem_of_cons; right].
    + destruct (IH acc) as (Ha & Hall & Hin).
      apply Qlt_alt in Hc.
      split; [done|]. split.
      * intros y [->|Hy]%elem_of_cons; [|by apply Hall].
        apply Qlt_le_weak. eapply Qlt_le_trans; eauto.
      * destruct Hin as [->|Hin]; [by left | right; by apply elem_of_cons; right].
    + destruct (IH x) as (Ha & Hall & Hin).
      apply Qgt_alt in Hc.
      split; [apply Qlt_le_weak; eapply Qlt_le_trans; eauto|]. split.
      * intros y [->|Hy]%elem_of_cons; [done | by apply Hall].
      * right. apply elem_of_cons.
        destruct Hin as [->|Hin]; [by left | by right].
Qed.

Lemma min_from_bounds acc l :
  (min_from acc l <= acc)%Q /\
  (forall y, y ∈ l -> (min_from acc l <= y)%Q) /\
  (min_from acc l = acc \/ min_from acc l ∈ l).
Proof.
  revert acc; induction l as [|x t IH]; intros acc; simpl.
  - split; [apply Qle_refl|]. split; [|by left].
    intros y Hy. by apply elem_of_nil in Hy.
  - destruct (x ?= acc)%Q eqn:Hc.
    + destruct (IH acc) as (Ha & Hall & Hin).
      apply Qeq_alt in Hc.
      split; [done|]. split.
      * intros y [->|Hy]%elem_of_cons; [by rewrite Hc | by apply Hall].
      * destruct Hin as [->|Hin]; [by left | right; by apply elem_of_cons; right].
    + destruct (IH x) as (Ha & Hall & Hin).
      apply Qlt_alt in Hc.
      split; [apply Qlt_le_weak; eapply Qle_lt_trans; eauto|]. split.
      * intros y [->|Hy]%elem_of_cons; [done | by apply Hall].
      * right. apply elem_of_cons.
        destruct Hin as [->|Hin]; [by left | by right].
    + destruct (IH acc) as (Ha & Hall & Hin).
      apply Qgt_alt in Hc.
      split; [done|]. split.
      * intros y [->|Hy]%elem_of_cons; [|by apply Hall].
        apply Qlt_le_weak. eapply Qle_lt_trans; eauto.
      * destruct Hin as [->|Hin]; [by left | right; by apply elem_of_cons; right].
Qed.

(** [index] finds the first item equal to [v] whenever there is one. *)
Lemma index_from_first v l i :
  (exists y, y ∈ l /\ (y == v)%Q) ->
  exists k y, index_from v l i = Ok (i + k)%nat /\ l !! k = Some y /\
    (y == v)%Q /\
    forall j z, (j < k)%nat -> l !! j = Some z -> ~ (z == v)%Q.
Proof.
  revert i; induction l as [|x t IH]; intros i (y & Hy & Heq).
  - by apply elem_of_nil in Hy.
  - simpl. destruct (Qeq_bool x v) eqn:Hb.
    + exists 0%nat, x. rewrite Nat.add_0_r.
      apply Qeq_bool_iff in Hb. repeat split; try done. lia.
    + assert (Hne : ~ (x == v)%Q) by (by apply Qeq_bool_neq).
      apply elem_of_cons in Hy as [->|Hy]; [done|].
      destruct (IH (S i)) as (k & y' & Hi & Hk & He & Hfirst); [by eauto|].
      exists (S k), y'. repeat split; try done.
      * rewrite Hi. f_equal. lia.
      * intros [|j] z Hj Hz; simpl in Hz; [by simplify_eq|].
        eapply Hfirst; [|done]. lia.
Qed.

Lemma index_of_max_first l :
  l <> [] ->
  exists i m, py_max l = Ok m /\ py_index l m = Ok i /\
    is_first_argmax l i.
Proof.
  destruct l as [|x t]; [done|]; intros _.
  destruct (max_from_bounds x t) as (Ha & Hall & Hin).
  set (m := max_from x t) in *.
  assert (Hmem : m ∈ x :: t).
  { apply elem_of_cons. destruct Hin; [by left | by right]. }
  assert (Hle : forall z, z ∈ x :: t -> (z <= m)%Q).
  { intros z [->|Hz]%elem_of_cons; [done | by apply Hall]. }
  destruct (index_from_first m (x :: t) 0) as (k & y & Hi & Hk & He & Hfirst).
  { exists m. split; [done | apply Qeq_refl]. }
  exists k, m. repeat split; [done|].
  exists y. split; [done|]. split.
  - intros j z Hz. rewrite He. apply Hle. by eapply list_elem_of_lookup_2.
  - intros j z Hj Hz. rewrite He.
    assert (Hzm : (z <= m)%Q) by (apply Hle; by eapply list_elem_of_lookup_2).
    apply Qle_lteq in Hzm as [Hlt|Heq]; [done|].
    by apply Hfirst in Hz.
Qed.

Lemma index_of_min_first l :
  l <> [] ->
  exists i m, py_min l = Ok m /\ py_index l m = Ok i /\
    is_first_argmin l i.
Proof.
  destruct l as [|x t]; [done|]; intros _.
  destruct (min_from_bounds x t) as (Ha & Hall & Hin).
  set (m := min_from x t) in *.
  assert (Hmem : m ∈ x :: t).
  { apply elem_of_cons. destruct Hin; [by left | by right]. }
  assert (Hle : forall z, z ∈ x :: t -> (m <= z)%Q).
  { intros z [->|Hz]%elem_of_cons; [done | by apply Hall]. }
  destruct (index_from_first m (x :: t) 0) as (k & y & Hi & Hk & He & Hfirst).
  { exists m. split; [done | apply Qeq_refl]. }
  exists k, m. repeat split; [done|].
  exists y. split; [done|]. split.
  - intros j z Hz. rewrite He. apply Hle. by eapply list_elem_of_lookup_2.
  - intros j z Hj Hz. rewrite He.
    assert (Hzm : (m <= z)%Q) by (apply Hle; by eapply list_elem_of_lookup_2).
    apply Qle_lteq in Hzm as [Hlt|Heq]; [done|].
    apply Hfirst in Hz; [|done]. by symmetry in Heq.
Qed.

Lemma is_first_argmax_unique l i j :
  is_first_argmax l i -> is_first_argmax l j -> i = j.
Proof.
  intros (y & Hy & Hmax & Hfirst) (y' & Hy' & Hmax' & Hfirst').
  destruct (Nat.lt_trichotomy i j) as [Hlt|[->|Hlt]]; [|done|].
  - apply (Hfirst' _ _ Hlt) in Hy. apply Hmax in Hy'.
    by apply Qlt_not_le in Hy.
  - apply (Hfirst _ _ Hlt) in Hy'. apply Hmax' in Hy.
    by apply Qlt_not_le in Hy'.
Qed.

End ListBuiltins.

(** ** The plotting routines on a valid checkpoint *)

Lemma Models_plot_valid path name w ck lv lt f1 :
  fs w !! path = Some (CheckpointFile ck) ->
  has_metrics ck lv lt f1 ->
  f1 <> [] ->
  exists fig i,
    Models_plot_training_metrics path name w =
      (Ok tt, after_plot w path
                (str (root_folder (self w))
                 +:+ "/data/images/" +:+ name +:+ ".png") fig []) /\
    is_first_argmax f1 i /\
    fig_markers fig = [("F1 Metric (Val)", i)] /\
    arrow_epochs fig = [S i] /\
    text_epochs fig = [S i] /\
    curves fig = [(arange1 (length lt), lt); (arange1 (length lv), lv);
                  (arange1 (length f1), f1)].
Proof.
  intros Hfile (Hv & Ht & Hf) Hne.
  destruct (index_of_max_first f1 Hne) as (i & m & Hm & Hi & Hfirst).
  unfold Models_plot_training_metrics, Models_plot_training_metrics_via,
    torch_load, getitem, index_of_max,
    savefig, log, write_file, get_self, as_list, lift, bind, ret; simpl.
  rewrite Hfile, Hv, Ht, Hf, Hm, Hi; simpl.
  eexists _, i. split; [unfold after_plot; simpl; rewrite <- app_assoc; reflexivity|].
  rewrite Nat.add_1_r. by repeat split.
Qed.

Lemma plot_function_valid path name dir w ck lv lt f1 :
  fs w !! path = Some (CheckpointFile ck) ->
  has_metrics ck lv lt f1 ->
  lv <> [] ->
  f1 <> [] ->
  exists fig i k,
    plot_training_metrics path name dir w =
      (Ok tt, after_plot w path (dir +:+ "/" +:+ name +:+ ".png") fig
                [EvPrint [Lit "Plot saved to ";
                          FmtStr (dir +:+ "/" +:+ name +:+ ".png")]]) /\
    is_first_argmax f1 i /\
    is_first_argmin lv k /\
    fig_markers fig = [("Test loss", k)] /\
    arrow_epochs fig = [S k] /\
    text_epochs fig = [S i] /\
    curves fig = [(arange1 (length lt), lt); (arange1 (length lv), lv);
                  (arange1 (length f1), f1)].
Proof.
  intros Hfile (Hv & Ht & Hf) Hnv Hne.
  destruct (index_of_max_first f1 Hne) as (i & m & Hm & Hi & Hfirst).
  destruct (index_of_min_first lv Hnv) as (k & n & Hn & Hk & Hmin).
  unfold plot_training_metrics, plot_training_metrics_via, torch_load, getitem, index_of_max,
    index_of_min, savefig, log, write_file, get_self, as_list, lift, bind,
    ret; simpl.
  rewrite Hfile, Hv, Ht, Hf, Hn, Hk, Hm, Hi; simpl.
  eexists _, i, k.
  split; [unfold after_plot; simpl; rewrite <- !app_assoc; reflexivity|].
  rewrite !Nat.add_1_r. by repeat split.
Qed.

(** ** The annotated epoch and the saved image *)

Lemma first_argmax_least l i :
  is_first_argmax l i ->
  attains_max l i /\ forall j, attains_max l j -> (i <= j)%nat.
Proof.
  intros (y & Hy & Hmax & Hfirst). split; [by exists y|].
  intros j (z & Hz & Hzmax).
  destruct (decide (i <= j)%nat) as [|Hlt]; [done|].
  assert (Hji : (j < i)%nat) by lia.
  apply (Hfirst _ _ Hji) in Hz. apply Hzmax in Hy.
  by apply Qlt_not_le in Hz.
Qed.

Lemma lookup_after_plot w path out fig printed :
  fs (after_plot w path out fig printed) !! out = Some (ImageFile fig).
Proof. unfold after_plot; simpl. apply lookup_insert_eq. Qed.

(** C3, as amended. On a checkpoint with a non-empty F1 sequence,
    [Models.plot_training_metrics] puts its marker, its arrow and the epoch
    number of its text at the first maximum of the F1 sequence (arrow and
    text one-based). The standalone [plot_training_metrics] prints the
    one-based epoch of the first F1 maximum in its text, but puts its marker
    and its arrow at the first minimum of the validation loss. *)
Theorem best_epoch_annotation path name dir w ck lv lt f1 :
  fs w !! path = Some (CheckpointFile ck) ->
  has_metrics ck lv lt f1 ->
  f1 <> [] ->
  (exists w' fig,
     Models_plot_training_metrics path name w = (Ok tt, w') /\
     fs w' !! (str (root_folder (self w))
               +:+ "/data/images/" +:+ name +:+ ".png") = Some (ImageFile fig) /\
     marks_best_f1 f1 fig) /\
  (lv <> [] ->
   exists w' fig i k,
     plot_training_metrics path name dir w = (Ok tt, w') /\
     fs w' !! (dir +:+ "/" +:+ name +:+ ".png") = Some (ImageFile fig) /\
     is_first_argmax f1 i /\ text_epochs fig = [S i] /\
     is_first_argmin lv k /\
     fig_markers fig = [("Test loss", k)] /\ arrow_epochs fig = [S k]).
Proof.
  intros Hfile Hck Hne. split.
  - destruct (Models_plot_valid path name w ck lv lt f1)
      as (fig & i & Hrun & Hi & Hmark & Harrow & Htext & _); try done.
    eexists _, fig. split; [exact Hrun|].
    split; [apply lookup_after_plot|].
    exists i. rewrite Hmark. by repeat split.
  - intros Hnv.
    destruct (plot_function_valid path name dir w ck lv lt f1)
      as (fig & i & k & Hrun & Hi & Hk & Hmark & Harrow & Htext & _); try done.
    eexists _, fig, i, k. split; [exact Hrun|].
    split; [apply lookup_after_plot|]. by repeat split.
Qed.

Lemma best_epoch_annotation_witness :
  (exists w' fig,
     Models_plot_training_metrics
       "/home/u/proj/data/models/effb0_best_f1.pth" "net" Sample.w = (Ok tt, w') /\
     fs w' !! "/home/u/proj/data/images/net.png" = Some (ImageFile fig) /\
     marks_best_f1 Sample.f1 fig).
Proof.
  apply (best_epoch_annotation
           "/home/u/proj/data/models/effb0_best_f1.pth" "net" "out" Sample.w
           (Sample.checkpoint Sample.f1 (8 # 10))
           Sample.val_loss Sample.train_loss Sample.f1).
  - vm_compute; reflexivity.
  - repeat split; vm_compute; reflexivity.
  - discriminate.
Defined.

Lemma sample_f1_best_at_1 : is_first_argmax Sample.f1 1.
Proof.
  exists (8 # 10)%Q. split; [reflexivity|]. split.
  - intros [|[|[|j]]] z Hz; simpl in Hz; simplify_eq; by vm_compute.
  - intros j z Hj Hz. assert (j = 0%nat) as -> by lia.
    simpl in Hz; simplify_eq. by vm_compute.
Qed.

(** C3 as stated fails for the standalone routine: on the sample checkpoint
    the best F1 is at epoch 2, while marker and arrow are at epoch 3, where
    the validation loss is least. *)
Lemma standalone_marks_least_loss :
  exists w' fig,
    plot_training_metrics
      "/home/u/proj/data/models/effb0_best_f1.pth" "net" "out" Sample.w
      = (Ok tt, w') /\
    fs w' !! "out/net.png" = Some (ImageFile fig) /\
    fig_markers fig = [("Test loss", 2%nat)] /\
    arrow_epochs fig = [3%nat] /\
    is_first_argmax Sample.f1 1 /\
    ~ marks_best_f1 Sample.f1 fig.
Proof.
  eexists _, _. split; [vm_compute; reflexivity|].
  split; [vm_compute; reflexivity|].
  split; [reflexivity|]. split; [reflexivity|].
  split; [apply sample_f1_best_at_1|].
  intros (i & Hi & _ & Harrow & _).
  assert (i = 2%nat) by (vm_compute in Harrow; congruence); subst i.
  pose proof (is_first_argmax_unique _ _ _ Hi sample_f1_best_at_1). lia.
Qed.

(** C7. A checkpoint whose three sequences have exactly one item is
    plotted by both routines without an exception (so without an index
    error); the one epoch is the annotated one. *)
Theorem single_epoch_plots path name dir w ck a b c :
  fs w !! path = Some (CheckpointFile ck) ->
  has_metrics ck [a] [b] [c] ->
  (exists w' fig,
     Models_plot_training_metrics path name w = (Ok tt, w') /\
     fs w' !! (str (root_folder (self w))
               +:+ "/data/images/" +:+ name +:+ ".png") = Some (ImageFile fig) /\
     fig_markers fig = [("F1 Metric (Val)", 0%nat)] /\
     arrow_epochs fig = [1%nat] /\ text_epochs fig = [1%nat]) /\
  (exists w' fig,
     plot_training_metrics path name dir w = (Ok tt, w') /\
     fs w' !! (dir +:+ "/" +:+ name +:+ ".png") = Some (ImageFile fig) /\
     fig_markers fig = [("Test loss", 0%nat)] /\
     arrow_epochs fig = [1%nat] /\ text_epochs fig = [1%nat]).
Proof.
  intros Hfile (Hv & Ht & Hf).
  assert (Hrefl : forall q, Qeq_bool q q = true)
    by (intros q; apply Qeq_bool_iff, Qeq_refl).
  split.
  - unfold Models_plot_training_metrics, Models_plot_training_metrics_via,
    torch_load, getitem, index_of_max,
      savefig, log, write_file, get_self, as_list, lift, bind, ret,
      py_index; simpl.
    rewrite Hfile, Hv, Ht, Hf; simpl. rewrite Hrefl; simpl.
    eexists _, _. split; [reflexivity|]. simpl.
    split; [apply lookup_insert_eq|]. by repeat split.
  - unfold plot_training_metrics, plot_training_metrics_via, torch_load, getitem, index_of_max,
      index_of_min, savefig, log, write_file, get_self, as_list, lift, bind,
      ret, py_index; simpl.
    rewrite Hfile, Hv, Ht, Hf; simpl. rewrite !Hrefl; simpl.
    eexists _, _. split; [reflexivity|]. simpl.
    split; [apply lookup_insert_eq|]. by repeat split.
Qed.

Lemma single_epoch_plots_witness :
  (exists w' fig,
     Models_plot_training_metrics
       "/home/u/proj/data/models/one_best_f1.pth" "one" Sample.w = (Ok tt, w') /\
     fs w' !! "/home/u/proj/data/images/one.png" = Some (ImageFile fig) /\
     fig_markers fig = [("F1 Metric (Val)", 0%nat)] /\
     arrow_epochs fig = [1%nat] /\ text_epochs fig = [1%nat]) /\
  (exists w' fig,
     plot_training_metrics
       "/home/u/proj/data/models/one_best_f1.pth" "one" "plots" Sample.w
       = (Ok tt, w') /\
     fs w' !! "plots/one.png" = Some (ImageFile fig) /\
     fig_markers fig = [("Test loss", 0%nat)] /\
     arrow_epochs fig = [1%nat] /\ text_epochs fig = [1%nat]).
Proof.
  apply (single_epoch_plots
           "/home/u/proj/data/models/one_best_f1.pth" "one" "plots" Sample.w
           Sample.one_epoch (9 # 10) (8 # 10) (3 # 10)).
  - vm_compute; reflexivity.
  - repeat split; vm_compute; reflexivity.
Defined.

Lemma sample_tie_attains j :
  (1 <= j <= 2)%nat -> attains_max Sample.f1_tie j.
Proof.
  intros Hj. destruct j as [|[|[|j]]]; try lia.
  - exists (8 # 10)%Q. split; [reflexivity|].
    intros [|[|[|k]]] z Hz; simpl in Hz; simplify_eq; by vm_compute.
  - exists (16 # 20)%Q. split; [reflexivity|].
    intros [|[|[|k]]] z Hz; simpl in Hz; simplify_eq; by vm_compute.
Qed.

Example tie_marks_epoch_2 :
  exists w' fig,
    Models_plot_training_metrics
      "/home/u/proj/data/models/tie_best_f1.pth" "tie" Sample.w = (Ok tt, w') /\
    fs w' !! "/home/u/proj/data/images/tie.png" = Some (ImageFile fig) /\
    fig_markers fig = [("F1 Metric (Val)", 1%nat)] /\
    arrow_epochs fig = [2%nat] /\ text_epochs fig = [2%nat].
Proof.
  eexists _, _. split; [vm_compute; reflexivity|].
  split; [vm_compute; reflexivity|]. by repeat split.
Qed.

(** ** Resizing the head *)

Lemma nn_Linear_ok i k w :
  0 <= i -> 0 <= k -> nn_Linear i k w = (Ok (Linear i k RandomInit), w).
Proof.
  intros Hi Hk. unfold nn_Linear.
  destruct (Z.ltb_spec i 0); [lia|]. destruct (Z.ltb_spec k 0); [lia|]. done.
Qed.

Lemma nn_Linear_negative i k w :
  k < 0 -> nn_Linear i k w = (Raise RuntimeError, w).
Proof.
  intros Hk. unfold nn_Linear.
  destruct (Z.ltb_spec k 0); [|lia]. by rewrite orb_true_r.
Qed.

Lemma create_new_resized a k w :
  0 <= k ->
  create_new a k w = (Ok (to (resized a k) (self_device (self w))), w).
Proof.
  intros Hk.
  destruct a; unfold create_new, create_new_efficientnet_b0,
    create_new_efficientnet_b1, create_new_mobilenet_v3_large,
    create_new_shufflenet_v2_x2_0, bind; simpl;
    rewrite nn_Linear_ok by lia; reflexivity.
Qed.

Lemma create_new_negative a k w :
  k < 0 -> create_new a k w = (Raise RuntimeError, w).
Proof.
  intros Hk.
  destruct a; unfold create_new, create_new_efficientnet_b0,
    create_new_efficientnet_b1, create_new_mobilenet_v3_large,
    create_new_shufflenet_v2_x2_0, bind; simpl;
    rewrite nn_Linear_negative by lia; reflexivity.
Qed.

Lemma prepare_finetuned_resized a m k w :
  0 <= k ->
  prepare_finetuned a m k w = restore_finetuned (resized a k) m w.
Proof.
  intros Hk.
  destruct a; unfold prepare_finetuned, prepare_finetuned_efficientnet_b0,
    prepare_finetuned_efficientnet_b1, prepare_finetuned_mobilenet_v3_large,
    prepare_finetuned_shufflenet_v2_x2_0, bind; simpl;
    rewrite nn_Linear_ok by lia; reflexivity.
Qed.

Lemma prepare_finetuned_negative a m k w :
  k < 0 -> prepare_finetuned a m k w = (Raise RuntimeError, w).
Proof.
  intros Hk.
  destruct a; unfold prepare_finetuned, prepare_finetuned_efficientnet_b0,
    prepare_finetuned_efficientnet_b1, prepare_finetuned_mobilenet_v3_large,
    prepare_finetuned_shufflenet_v2_x2_0, bind; simpl;
    rewrite nn_Linear_negative by lia; reflexivity.
Qed.

Lemma output_dim_resized a k : output_dim (resized a k) = Some k.
Proof. by destruct a. Qed.

Lemma out_features_reload v l :
  out_features (reload_layer v l) = out_features l.
Proof. by destruct l. Qed.

Lemma output_dim_reload v model model' :
  m_head model' = reload_head v (m_head model) ->
  output_dim model' = output_dim model.
Proof.
  unfold output_dim, final_layer. intros ->.
  destruct (m_head model) as [ls|l]; simpl; [|apply out_features_reload].
  induction ls as [|x [|y t] IH]; simpl;
    [done | apply out_features_reload | apply IH].
Qed.

(** ** Restoring the fine-tuned parameters *)

(** The state of the world once [torch.load(path)] was called, and once
    the best F1 was written into the registry. *)
Abbreviation loaded w path := (snd (log (EvLoad path) w)).
Abbreviation registered w name v := (snd (set_model_weight name v w)).

Lemma restore_finetuned_outcome model m w :
  let p := str (download_folder (self w)) +:+ "/" +:+ m +:+ "_best_f1.pth" in
  (exists ck sd best,
     fs w !! p = Some (CheckpointFile ck) /\
     ck !! "model_state_dict" = Some (PyStateDict sd) /\
     sd_fits model sd = true /\
     ck !! "best_val_f1" = Some best /\
     exists model',
       restore_finetuned model m w
         = (Ok model', registered (loaded w p) m best) /\
       output_dim model' = output_dim model /\
       m_training model' = false /\
       m_device model' = self_device (self w)) \/
  (exists e, restore_finetuned model m w = (Raise e, loaded w p)).
Proof.
  intros p. unfold restore_finetuned, torch_load, bind, get_self; simpl.
  fold p. destruct (fs w !! p) as [[ck|fig]|] eqn:Hfile; simpl;
    [|right; eauto..].
  unfold getitem.
  destruct (ck !! "model_state_dict") as [[q|l|sd]|] eqn:Hsd; simpl;
    [right; eauto..| |right; eauto].
  destruct (sd_fits model sd) eqn:Hfit; simpl; [|right; eauto].
  destruct (ck !! "best_val_f1") as [best|] eqn:Hbest; simpl; [|right; eauto].
  left. exists ck, sd, best. repeat split; try done.
  eexists. split; [reflexivity|]. repeat split.
  by apply (output_dim_reload (sd_values sd)).
Qed.

Lemma prepare_finetuned_outcome a m k w :
  let p := str (download_folder (self w)) +:+ "/" +:+ m +:+ "_best_f1.pth" in
  (exists ck sd best model,
     0 <= k /\
     fs w !! p = Some (CheckpointFile ck) /\
     ck !! "model_state_dict" = Some (PyStateDict sd) /\
     sd_fits (resized a k) sd = true /\
     ck !! "best_val_f1" = Some best /\
     prepare_finetuned a m k w = (Ok model, registered (loaded w p) m best) /\
     output_dim model = Some k) \/
  (exists e, 0 <= k /\ prepare_finetuned a m k w = (Raise e, loaded w p)) \/
  (k < 0 /\ prepare_finetuned a m k w = (Raise RuntimeError, w)).
Proof.
  intros p. destruct (Z.lt_ge_cases k 0) as [Hneg|Hk].
  - right; right. split; [done | by apply prepare_finetuned_negative].
  - rewrite prepare_finetuned_resized by done.
    destruct (restore_finetuned_outcome (resized a k) m w)
      as [(ck & sd & best & Hfile & Hsd & Hfit & Hbest & model & Hrun & Hdim & _)
         |(e & Hrun)].
    + left. exists ck, sd, best, model. repeat split; try done.
      by rewrite Hdim, output_dim_resized.
    + right; left. by exists e.
Qed.

Example registry_after_sample_load :
  model_weights
    (self (snd (prepare_finetuned efficientnet_b0 "effb0" 8 Sample.w)))
    !! "effb0" = Some (PyFloat (8 # 10)).
Proof. vm_compute; reflexivity. Qed.

(** ** Routines that do not touch the [Models] object *)

Section KeepsSelf.

Context {A B : Type}.

Lemma keeps_ret (a : A) : keeps_self (ret a).
Proof. by intros w. Qed.

Lemma keeps_raise e : keeps_self (@raise A e).
Proof. by intros w. Qed.

Lemma keeps_lift (r : result A) : keeps_self (lift r).
Proof. by intros w. Qed.

Lemma keeps_bind (m : M A) (f : A -> M B) :
  keeps_self m -> (forall a, keeps_self (f a)) -> keeps_self (bind m f).
Proof.
  intros Hm Hf w. unfold bind. specialize (Hm w).
  destruct (m w) as [[a|e] w1]; simpl in *; [|done].
  by rewrite Hf.
Qed.

End KeepsSelf.

Lemma keeps_log e : keeps_self (log e).
Proof. by intros w. Qed.

Lemma keeps_write_file path f : keeps_self (write_file path f).
Proof. by intros w. Qed.

Lemma keeps_get_self : keeps_self get_self.
Proof. by intros w. Qed.

Lemma keeps_torch_load path : keeps_self (torch_load path).
Proof.
  intros w. unfold torch_load, bind; simpl.
  by destruct (fs w !! path) as [[]|].
Qed.

Lemma keeps_getitem d key : keeps_self (getitem d key).
Proof. unfold getitem. destruct (d !! key); [apply keeps_ret | apply keeps_raise]. Qed.

Lemma keeps_as_list v e : keeps_self (as_list v e).
Proof. destruct v; simpl; first [apply keeps_ret | apply keeps_raise]. Qed.

Lemma keeps_unzip dir archive : keeps_self (unzip dir archive).
Proof.
  induction archive as [|[name f] rest IH]; simpl; [apply keeps_ret|].
  apply keeps_bind; [apply keeps_write_file | by intros _].
Qed.

Create HintDb keeps.
#[local] Hint Resolve keeps_log keeps_write_file keeps_get_self
  keeps_torch_load keeps_getitem keeps_as_list keeps_unzip : keeps.

Ltac keeps_self_tac :=
  repeat first
    [ apply keeps_ret | apply keeps_raise | apply keeps_lift
    | solve [auto with keeps]
    | apply keeps_bind; [|intros ?] ].

Lemma keeps_savefig path fig : keeps_self (savefig path fig).
Proof. unfold savefig. keeps_self_tac. Qed.

Lemma keeps_index_of_max l : keeps_self (index_of_max l).
Proof. unfold index_of_max. keeps_self_tac. Qed.

Lemma keeps_index_of_min l : keeps_self (index_of_min l).
Proof. unfold index_of_min. keeps_self_tac. Qed.

#[local] Hint Resolve keeps_savefig keeps_index_of_max keeps_index_of_min
  : keeps.

Lemma keeps_Models_plot path name :
  keeps_self (Models_plot_training_metrics path name).
Proof.
  unfold Models_plot_training_metrics, Models_plot_training_metrics_via;
    cbv zeta.
  keeps_self_tac.
Qed.

Lemma keeps_plot_function path name dir :
  keeps_self (plot_training_metrics path name dir).
Proof.
  unfold plot_training_metrics, plot_training_metrics_via; cbv zeta.
  keeps_self_tac.
Qed.

Lemma keeps_mkdir_exist_ok p : keeps_self (mkdir_exist_ok p).
Proof.
  intros w. unfold mkdir_exist_ok.
  destruct (is_directory (env w) p); [done|].
  destruct (fs w !! p); [done|]. by destruct (can_create (env w) p).
Qed.

Lemma keeps_dataset_download_files dataset dir :
  keeps_self (dataset_download_files dataset dir).
Proof.
  unfold dataset_download_files.
  apply keeps_bind; [apply keeps_log | intros _].
  apply keeps_bind; [by intros w | intros members; apply keeps_unzip].
Qed.

Lemma keeps_download_from_kaggle : keeps_self download_from_kaggle.
Proof.
  unfold download_from_kaggle.
  apply keeps_bind; [apply keeps_get_self | intros s].
  apply keeps_bind; [apply keeps_mkdir_exist_ok | intros _].
  apply keeps_dataset_download_files.
Qed.

Lemma keeps_create_new a k : keeps_self (create_new a k).
Proof.
  intros w. destruct (Z.lt_ge_cases k 0).
  - by rewrite create_new_negative.
  - by rewrite create_new_resized.
Qed.


(** ** The registry under scripts of calls *)





Example failed_load_adds_no_key :
  let w' := snd (calls [PrepareFinetuned efficientnet_b0 "absent" 8] Sample.w) in
  fst (calls [PrepareFinetuned efficientnet_b0 "absent" 8] Sample.w)
  = Raise (FileNotFoundError "/home/u/proj/data/models/absent_best_f1.pth") /\
  model_weights (self w') = ∅.
Proof. split; vm_compute; reflexivity. Qed.

(** The outcome of a preparation call depends on the world only through
    the file system, the download folder and the device; its effect on the
    registry is one insertion, or none when it raises. *)
Lemma prepare_finetuned_same a m k w1 w2 :
  fs w1 = fs w2 ->
  download_folder (self w1) = download_folder (self w2) ->
  self_device (self w1) = self_device (self w2) ->
  fst (prepare_finetuned a m k w1) = fst (prepare_finetuned a m k w2) /\
  match fst (prepare_finetuned a m k w2) with
  | Ok _ =>
      exists best,
        model_weights (self (snd (prepare_finetuned a m k w1)))
          = <[m := best]> (model_weights (self w1)) /\
        model_weights (self (snd (prepare_finetuned a m k w2)))
          = <[m := best]> (model_weights (self w2))
  | Raise _ =>
      model_weights (self (snd (prepare_finetuned a m k w1)))
        = model_weights (self w1) /\
      model_weights (self (snd (prepare_finetuned a m k w2)))
        = model_weights (self w2)
  end.
Proof.
  intros Hfs Hdf Hdev. destruct (Z.lt_ge_cases k 0) as [Hneg|Hk].
  - by rewrite !prepare_finetuned_negative.
  - rewrite !prepare_finetuned_resized by done.
    unfold restore_finetuned, torch_load, getitem, load_state_dict, bind,
      get_self; simpl.
    rewrite Hfs, Hdf.
    destruct (fs w2 !! _) as [[ck|fig]|]; simpl; try done.
    destruct (ck !! "model_state_dict") as [[q|l|sd]|]; simpl; try done.
    destruct (sd_fits (resized a k) sd); simpl; try done.
    destruct (ck !! "best_val_f1") as [best|]; simpl; try done.
    rewrite Hdev. split; [done|]. by exists best.
Qed.

Example reload_overwrites :
  let stale :=
    snd (set_model_weight "effb0" (PyFloat (1 # 10)) Sample.w) in
  model_weights (self stale) !! "effb0" = Some (PyFloat (1 # 10)) /\
  model_weights
    (self (snd (prepare_finetuned efficientnet_b0 "effb0" 8 stale)))
    !! "effb0" = Some (PyFloat (8 # 10)).
Proof. split; vm_compute; reflexivity. Qed.

(** ** The path of the checkpoint *)

Lemma string_app_assoc (s1 s2 s3 : string) :
  s1 +:+ (s2 +:+ s3) = (s1 +:+ s2) +:+ s3.
Proof.
  induction s1 as [|c s1 IH]; [reflexivity|].
  change (String c (s1 +:+ (s2 +:+ s3)) = String c ((s1 +:+ s2) +:+ s3)).
  by rewrite IH.
Qed.

Lemma join_parts_snoc l x :
  l <> [] -> join_parts (l ++ [x]) = join_parts l +:+ "/" +:+ x.
Proof.
  induction l as [|y [|z t] IH]; intros Hne; [done|reflexivity|].
  change (y +:+ "/" +:+ join_parts ((z :: t) ++ [x])
          = (y +:+ "/" +:+ join_parts (z :: t)) +:+ "/" +:+ x).
  rewrite IH by done. by rewrite <- !string_app_assoc.
Qed.

Lemma str_truediv p x :
  parts p <> [] -> str (truediv p x) = str p +:+ "/" +:+ x.
Proof.
  intros Hne. unfold str, truediv; simpl.
  rewrite join_parts_snoc by done.
  destruct (absolute p).
  - by rewrite <- !string_app_assoc.
  - destruct (parts p) as [|y t] eqn:Hp; [done|].
    by destruct t.
Qed.

Lemma call_keeps_folders o w :
  root_folder (self (snd (call o w))) = root_folder (self w) /\
  download_folder (self (snd (call o w))) = download_folder (self w).
Proof.
  destruct o as [|a k|a m k|p n]; simpl.
  - by rewrite keeps_download_from_kaggle.
  - unfold bind. pose proof (keeps_create_new a k w) as Hk.
    destruct (create_new a k w) as [[model|e] w1]; simpl in *; by rewrite Hk.
  - unfold bind.
    destruct (prepare_finetuned_outcome a m k w)
      as [(ck & sd & best & model' & _ & _ & _ & _ & _ & Hok & _)
         |[(e & _ & Hfail)|(_ & Hfail)]];
      [rewrite Hok | rewrite Hfail | rewrite Hfail]; done.
  - by rewrite keeps_Models_plot.
Qed.

Lemma calls_keep_folders os w :
  root_folder (self (snd (calls os w))) = root_folder (self w) /\
  download_folder (self (snd (calls os w))) = download_folder (self w).
Proof.
  revert w; induction os as [|o rest IH]; intros w; simpl; [done|].
  unfold bind. destruct (call_keeps_folders o w) as [Hr Hd].
  destruct (call o w) as [[[]|e] w1]; simpl in *; [|done].
  destruct (IH w1) as [-> ->]. done.
Qed.

(** C5. [download_folder] is set to [root / "data" / "models"] when the
    object is built, where [root] is three levels above the module file,
    and no call changes it. Whatever was called before, a fine-tuned
    preparation call for model name [m] asks [torch.load] for one file, and
    that file is [<download_folder>/<m>_best_f1.pth]. *)
Theorem checkpoint_path_read file cred cuda s files archive os w a m k :
  Models_init file cred cuda = Ok s ->
  calls os (start s files archive) = (Ok tt, w) ->
  0 <= k ->
  let root := parent (parent (parent file)) in
  let folder := truediv (truediv root "data") "models" in
  download_folder s = folder /\
  download_folder (self w) = folder /\
  (parts root <> [] -> str folder = str root +:+ "/data/models") /\
  trace (snd (prepare_finetuned a m k w))
    = trace w ++ [EvLoad (str folder +:+ "/" +:+ m +:+ "_best_f1.pth")] /\
  download_folder (self (snd (prepare_finetuned a m k w))) = folder.
Proof.
  intros Hinit Hrun Hk root folder.
  assert (Hs : download_folder s = folder).
  { unfold Models_init in Hinit. destruct cred; [|done].
    by injection Hinit as <-. }
  assert (Hw : download_folder (self w) = folder).
  { destruct (calls_keep_folders os (start s files archive)) as [_ Hd].
    rewrite Hrun in Hd. simpl in Hd. by rewrite Hd. }
  split; [done|]. split; [done|]. split.
  - intros Hne. unfold folder.
    rewrite (str_truediv (truediv root "data"))
      by (simpl; intros [_ ?]%app_eq_nil; done).
    rewrite (str_truediv root) by done.
    by rewrite <- !string_app_assoc.
  - rewrite <- Hw.
    destruct (prepare_finetuned_outcome a m k w)
      as [(ck & sd & best & model' & _ & _ & _ & _ & _ & Hok & _)
         |[(e & _ & Hfail)|(Hneg & _)]];
      [rewrite Hok | rewrite Hfail | lia]; done.
Qed.

Lemma checkpoint_path_read_witness :
  trace (snd (prepare_finetuned efficientnet_b0 "effb0" 8
                (snd (calls Sample.script Sample.w))))
  = trace (snd (calls Sample.script Sample.w))
    ++ [EvLoad "/home/u/proj/data/models/effb0_best_f1.pth"].
Proof.
  destruct (checkpoint_path_read Sample.module_file true false Sample.me
              Sample.files Sample.disk Sample.script
              (snd (calls Sample.script Sample.w))
              efficientnet_b0 "effb0" 8)
    as (_ & _ & _ & Htrace & _).
  - vm_compute; reflexivity.
  - vm_compute; reflexivity.
  - lia.
  - exact Htrace.
Defined.

(** ** Failures *)

Ltac unfold_routines :=
  unfold run_routine, restore_finetuned, Models_plot_training_metrics,
    Models_plot_training_metrics_via, plot_training_metrics,
    plot_training_metrics_via, torch_load, getitem, load_state_dict,
    index_of_max, index_of_min, as_list, savefig, log, write_file, get_self,
    lift, bind, ret, raise, checkpoint_file in *;
  simpl in *.

(** C6. When an underlying operation of a fine-tuned preparation call or
    of a plotting routine fails (the checkpoint file is missing, the
    checkpoint lacks an expected key, the stored parameters do not fit the
    network, the F1 sequence is empty, or, for the standalone routine, the
    validation losses are empty), the routine ends with that very
    exception: it does not return, nothing is caught or replaced, no image
    is written and the registry is left as it was. *)
Theorem failures_propagate w r e :
  underlying_failure w r e ->
  exists w',
    run_routine r w = (Raise e, w') /\
    fs w' = fs w /\
    model_weights (self w') = model_weights (self w).
Proof.
  intros Hfail.
  destruct Hfail as
    [ r Hhead Hfile
    | a m k ck Hk Hfile Hsd
    | a m k ck sd Hk Hfile Hsd Hfit
    | a m k ck sd Hk Hfile Hsd Hfit Hbest
    | r ck Hplot Hfile Hv
    | r ck Hplot Hfile [v Hv] Ht
    | r ck Hplot Hfile [v Hv] [t Ht] Hf
    | r ck lv lt Hplot Hfile (Hv & Ht & Hf)
    | p n d ck lt f1 Hfile (Hv & Ht & Hf) ].
  - destruct r as [a m k|p n|p n d]; simpl in Hhead.
    + unfold run_routine, bind at 1.
      rewrite prepare_finetuned_resized by done.
      unfold_routines. rewrite Hfile. by eexists.
    + unfold_routines. rewrite Hfile. by eexists.
    + unfold_routines. rewrite Hfile. by eexists.
  - unfold run_routine, bind at 1. rewrite prepare_finetuned_resized by done.
    unfold_routines. rewrite Hfile; simpl. rewrite Hsd. by eexists.
  - unfold run_routine, bind at 1. rewrite prepare_finetuned_resized by done.
    unfold_routines. rewrite Hfile; simpl. rewrite Hsd; simpl.
    rewrite Hfit. by eexists.
  - unfold run_routine, bind at 1. rewrite prepare_finetuned_resized by done.
    unfold_routines. rewrite Hfile; simpl. rewrite Hsd; simpl.
    rewrite Hfit; simpl. rewrite Hbest. by eexists.
  - destruct r as [a m k|p n|p n d]; [done|..];
      unfold_routines; rewrite Hfile; simpl; rewrite Hv; by eexists.
  - destruct r as [a m k|p n|p n d]; [done|..];
      unfold_routines; rewrite Hfile; simpl; rewrite Hv, Ht; by eexists.
  - destruct r as [a m k|p n|p n d]; [done|..];
      unfold_routines; rewrite Hfile; simpl; rewrite Hv, Ht, Hf; by eexists.
  - destruct r as [a m k|p n|p n d]; [done|..].
    + unfold_routines. rewrite Hfile; simpl. rewrite Hv, Ht, Hf. by eexists.
    + unfold_routines. rewrite Hfile; simpl. rewrite Hv, Ht, Hf; simpl.
      destruct lv as [|x lv']; simpl; [by eexists|].
      destruct (index_of_min_first (x :: lv')) as (i & mn & Hmn & Hi & _);
        [done|].
      simpl in Hmn. injection Hmn as <-. rewrite Hi. by eexists.
  - unfold_routines. rewrite Hfile; simpl. rewrite Hv, Ht, Hf. by eexists.
Qed.

Lemma failures_propagate_witness :
  exists w',
    run_routine (Prepare efficientnet_b0 "absent" 8) Sample.w
      = (Raise (FileNotFoundError
                  "/home/u/proj/data/models/absent_best_f1.pth"), w') /\
    fs w' = fs Sample.w /\
    model_weights (self w') = model_weights (self Sample.w).
Proof.
  apply (failures_propagate Sample.w (Prepare efficientnet_b0 "absent" 8)).
  apply (missing_file Sample.w (Prepare efficientnet_b0 "absent" 8)).
  - simpl; lia.
  - vm_compute; reflexivity.
Defined.

Example checkpoint_without_parameters :
  fst (prepare_finetuned efficientnet_b0 "one" 8 Sample.w)
  = Raise (KeyError "model_state_dict").
Proof. vm_compute; reflexivity. Qed.

Example checkpoint_of_other_size :
  fst (prepare_finetuned efficientnet_b0 "effb0" 10 Sample.w)
  = Raise RuntimeError.
Proof. vm_compute; reflexivity. Qed.

Example plot_of_missing_file :
  fst (Models_plot_training_metrics "nowhere.pth" "net" Sample.w)
  = Raise (FileNotFoundError "nowhere.pth").
Proof. vm_compute; reflexivity. Qed.

(** An empty list of training losses makes no operation fail: the curve is
    drawn without points. *)
Example empty_train_loss_is_plotted :
  fst (Models_plot_training_metrics
         "/home/u/proj/data/models/short_best_f1.pth" "short" Sample.w)
  = Ok tt /\
  fst (plot_training_metrics
         "/home/u/proj/data/models/short_best_f1.pth" "short"
         default_output_dir Sample.w)
  = Ok tt.
Proof. split; vm_compute; reflexivity. Qed.

(** * Further properties of the code *)

(** ** [max], [min] and [index] return an item of the list *)

Lemma max_from_position acc l :
  (max_from acc l = acc /\ forall y, y ∈ l -> (y <= acc)%Q) \/
  (exists j, l !! j = Some (max_from acc l) /\
             (acc < max_from acc l)%Q /\
             forall k z, (k < j)%nat -> l !! k = Some z ->
                         (z < max_from acc l)%Q).
Proof.
  revert acc; induction l as [|x t IH]; intros acc; simpl.
  - left. split; [done|]. intros y Hy. by apply elem_of_nil in Hy.
  - destruct (x ?= acc)%Q eqn:Hc.
    + apply Qeq_alt in Hc.
      destruct (IH acc) as [[Hm Hall]|(j & Hj & Hlt & Hbefore)].
      * left. split; [done|].
        intros y [->|Hy]%elem_of_cons;
          [rewrite Hc; apply Qle_refl | by apply Hall].
      * right. exists (S j). split; [done|]. split; [done|].
        intros [|k] z Hk Hz; simpl in Hz.
        -- injection Hz as <-. by rewrite Hc.
        -- eapply Hbefore; [|done]. lia.
    + apply Qlt_alt in Hc.
      destruct (IH acc) as [[Hm Hall]|(j & Hj & Hlt & Hbefore)].
      * left. split; [done|].
        intros y [->|Hy]%elem_of_cons; [by apply Qlt_le_weak | by apply Hall].
      * right. exists (S j). split; [done|]. split; [done|].
        intros [|k] z Hk Hz; simpl in Hz.
        -- injection Hz as <-. by eapply Qlt_trans.
        -- eapply Hbefore; [|done]. lia.
    + apply Qgt_alt in Hc.
      destruct (IH x) as [[Hm Hall]|(j & Hj & Hlt & Hbefore)].
      * right. exists 0%nat. rewrite Hm. split; [done|]. split; [done|].
        intros k z Hk. lia.
      * right. exists (S j). split; [done|].
        split; [by eapply Qlt_trans|].
        intros [|k] z Hk Hz; simpl in Hz.
        -- by injection Hz as <-.
        -- eapply Hbefore; [|done]. lia.
Qed.

Lemma min_from_position acc l :
  (min_from acc l = acc /\ forall y, y ∈ l -> (acc <= y)%Q) \/
  (exists j, l !! j = Some (min_from acc l) /\
             (min_from acc l < acc)%Q /\
             forall k z, (k < j)%nat -> l !! k = Some z ->
                         (min_from acc l < z)%Q).
Proof.
  revert acc; induction l as [|x t IH]; intros acc; simpl.
  - left. split; [done|]. intros y Hy. by apply elem_of_nil in Hy.
  - destruct (x ?= acc)%Q eqn:Hc.
    + apply Qeq_alt in Hc.
      destruct (IH acc) as [[Hm Hall]|(j & Hj & Hlt & Hbefore)].
      * left. split; [done|].
        intros y [->|Hy]%elem_of_cons;
          [rewrite Hc; apply Qle_refl | by apply Hall].
      * right. exists (S j). split; [done|]. split; [done|].
        intros [|k] z Hk Hz; simpl in Hz.
        -- injection Hz as <-. by rewrite Hc.
        -- eapply Hbefore; [|done]. lia.
    + apply Qlt_alt in Hc.
      destruct (IH x) as [[Hm Hall]|(j & Hj & Hlt & Hbefore)].
      * right. exists 0%nat. rewrite Hm. split; [done|]. split; [done|].
        intros k z Hk. lia.
      * right. exists (S j). split; [done|].
        split; [by eapply Qlt_trans|].
        intros [|k] z Hk Hz; simpl in Hz.
        -- by injection Hz as <-.
        -- eapply Hbefore; [|done]. lia.
    + apply Qgt_alt in Hc.
      destruct (IH acc) as [[Hm Hall]|(j & Hj & Hlt & Hbefore)].
      * left. split; [done|].
        intros y [->|Hy]%elem_of_cons; [by apply Qlt_le_weak | by apply Hall].
      * right. exists (S j). split; [done|]. split; [done|].
        intros [|k] z Hk Hz; simpl in Hz.
        -- injection Hz as <-. by eapply Qlt_trans.
        -- eapply Hbefore; [|done]. lia.
Qed.

Lemma index_finds_item v l j :
  l !! j = Some v ->
  (forall k z, (k < j)%nat -> l !! k = Some z -> ~ (z == v)%Q) ->
  py_index l v = Ok j.
Proof.
  intros Hj Hbefore.
  destruct (index_from_first v l 0) as (k & y & Hk & Hy & Heq & Hfirst).
  { exists v. split; [by eapply list_elem_of_lookup_2 | apply Qeq_refl]. }
  unfold py_index. rewrite Hk. f_equal. simpl.
  destruct (Nat.lt_trichotomy k j) as [Hlt|[->|Hlt]]; [|done|].
  - by destruct (Hbefore _ _ Hlt Hy).
  - destruct (Hfirst _ _ Hlt Hj). apply Qeq_refl.
Qed.

Lemma extremum_position (l : list Q) :
  l <> [] ->
  (exists i m, py_max l = Ok m /\ py_index l m = Ok i /\ l !! i = Some m) /\
  (exists i m, py_min l = Ok m /\ py_index l m = Ok i /\ l !! i = Some m).
Proof.
  destruct l as [|x t]; [done|]; intros _. split.
  - destruct (max_from_position x t) as [[Hm Hall]|(j & Hj & Hlt & Hbefore)].
    + exists 0%nat, (max_from x t). split; [done|].
      split; [|by rewrite Hm].
      apply index_finds_item; [by rewrite Hm | intros k z Hk; lia].
    + exists (S j), (max_from x t). split; [done|]. split; [|done].
      apply index_finds_item; [done|].
      intros [|k] z Hk Hz Heq; simpl in Hz.
      * injection Hz as <-. by apply Qlt_not_eq in Hlt.
      * assert (Hk' : (k < j)%nat) by lia.
        pose proof (Hbefore _ _ Hk' Hz) as Hzlt.
        by apply Qlt_not_eq in Hzlt.
  - destruct (min_from_position x t) as [[Hm Hall]|(j & Hj & Hlt & Hbefore)].
    + exists 0%nat, (min_from x t). split; [done|].
      split; [|by rewrite Hm].
      apply index_finds_item; [by rewrite Hm | intros k z Hk; lia].
    + exists (S j), (min_from x t). split; [done|]. split; [|done].
      apply index_finds_item; [done|].
      intros [|k] z Hk Hz Heq; simpl in Hz.
      * injection Hz as <-. apply Qlt_not_eq in Hlt.
        apply Hlt. by symmetry.
      * assert (Hk' : (k < j)%nat) by lia.
        pose proof (Hbefore _ _ Hk' Hz) as Hzlt.
        apply Qlt_not_eq in Hzlt. apply Hzlt. by symmetry.
Qed.

(** X1. On a non-empty list [l.index(max(l))] does not raise: it returns a
    position inside the list, and the item at that position is [max(l)]
    itself. The same holds for [l.index(min(l))]. *)
Theorem index_of_extremum_in_range (l : list Q) :
  l <> [] ->
  (exists i m, py_max l = Ok m /\ py_index l m = Ok i /\
               (i < length l)%nat /\ l !! i = Some m) /\
  (exists i m, py_min l = Ok m /\ py_index l m = Ok i /\
               (i < length l)%nat /\ l !! i = Some m).
Proof.
  intros Hne.
  destruct (extremum_position l Hne)
    as [(i & m & Hm & Hi & Hitem) (k & n & Hn & Hk & Hitem')].
  split.
  - exists i, m. repeat split; try done. by eapply lookup_lt_Some.
  - exists k, n. repeat split; try done. by eapply lookup_lt_Some.
Qed.

Lemma index_of_extremum_in_range_witness :
  (exists i m, py_max Sample.f1_tie = Ok m /\ py_index Sample.f1_tie m = Ok i /\
               (i < length Sample.f1_tie)%nat /\ Sample.f1_tie !! i = Some m) /\
  (exists i m, py_min Sample.f1_tie = Ok m /\ py_index Sample.f1_tie m = Ok i /\
               (i < length Sample.f1_tie)%nat /\ Sample.f1_tie !! i = Some m).
Proof. apply (index_of_extremum_in_range Sample.f1_tie). discriminate. Defined.

(** ** Every outcome of the plotting routines *)

Lemma Models_plot_outcome path name w :
  let out := str (root_folder (self w))
             +:+ "/data/images/" +:+ name +:+ ".png" in
  (exists ck lv lt f1 i m fig,
     fs w !! path = Some (CheckpointFile ck) /\
     has_metrics ck lv lt f1 /\
     py_max f1 = Ok m /\ py_index f1 m = Ok i /\
     Models_plot_training_metrics path name w
       = (Ok tt, after_plot w path out fig []) /\
     curves fig = [(arange1 (length lt), lt); (arange1 (length lv), lv);
                   (arange1 (length f1), f1)] /\
     fig_markers fig = [("F1 Metric (Val)", i)] /\
     arrow_tips fig = [(S i, m)] /\
     text_anchors fig = [(S i, (m - (15 # 1000))%Q)] /\
     annotation_texts fig
       = [[Lit "Max F1 score after "; FmtInt (S i);
           Lit " epochs, equals: "; FmtRound m 3]] /\
     ylim_top (ax_right fig) = Some (m * (1015 # 1000))%Q /\
     ylim_top (ax_left fig) = None /\
     legend (ax_left fig) = ["Train loss"; "Val loss"; "F1 Metric (Val)"] /\
     title fig = [FmtStr name; Lit " - Train and Val loss, F1 Metric after ";
                  FmtInt (length lt); Lit " epochs"]) \/
  (exists e,
     Models_plot_training_metrics path name w = (Raise e, loaded w path)).
Proof.
  intros out. unfold_routines.
  destruct (fs w !! path) as [[ck|img]|] eqn:Hfile; simpl; [|right; eauto..].
  destruct (ck !! "val_loss") as [v|] eqn:Hv; simpl; [|right; eauto].
  destruct (ck !! "train_loss") as [t|] eqn:Ht; simpl; [|right; eauto].
  destruct (ck !! "f1_metric_val") as [f|] eqn:Hf; simpl; [|right; eauto].
  destruct t as [q|lt|sd]; simpl; [right; eauto| |right; eauto].
  destruct v as [q|lv|sd]; simpl; [right; eauto| |right; eauto].
  destruct f as [q|f1|sd]; simpl; [right; eauto| |right; eauto].
  destruct (py_max f1) as [m|e] eqn:Hm; simpl; [|right; eauto].
  destruct (py_index f1 m) as [i|e] eqn:Hi; simpl; [|right; eauto].
  left. exists ck, lv, lt, f1, i, m. eexists.
  split; [done|]. split; [done|]. split; [done|]. split; [done|].
  split; [unfold after_plot; simpl; rewrite <- app_assoc; reflexivity|].
  rewrite Nat.add_1_r. by repeat split.
Qed.

Lemma plot_function_outcome path name dir w :
  let out := dir +:+ "/" +:+ name +:+ ".png" in
  (exists ck lv lt f1 i m k n fig,
     fs w !! path = Some (CheckpointFile ck) /\
     has_metrics ck lv lt f1 /\
     py_max f1 = Ok m /\ py_index f1 m = Ok i /\
     py_min lv = Ok n /\ py_index lv n = Ok k /\
     plot_training_metrics path name dir w
       = (Ok tt, after_plot w path out fig
                   [EvPrint [Lit "Plot saved to "; FmtStr out]]) /\
     curves fig = [(arange1 (length lt), lt); (arange1 (length lv), lv);
                   (arange1 (length f1), f1)] /\
     fig_markers fig = [("Test loss", k)] /\
     arrow_tips fig = [(S k, n)] /\
     text_anchors fig = [(S k, (n + (5 # 100))%Q)] /\
     annotation_texts fig
       = [[Lit "Max F1 score after "; FmtInt (S i);
           Lit " epochs, equals: "; FmtFloat m]] /\
     legend (ax_left fig) = ["Train loss"; "Test loss"; "F1 Metric (Val)"] /\
     title fig = [Lit "Train and Val loss, F1 Metric after ";
                  FmtInt (length lt); Lit " epochs"]) \/
  (exists e,
     plot_training_metrics path name dir w = (Raise e, loaded w path)).
Proof.
  intros out. unfold_routines.
  destruct (fs w !! path) as [[ck|img]|] eqn:Hfile; simpl; [|right; eauto..].
  destruct (ck !! "val_loss") as [v|] eqn:Hv; simpl; [|right; eauto].
  destruct (ck !! "train_loss") as [t|] eqn:Ht; simpl; [|right; eauto].
  destruct (ck !! "f1_metric_val") as [f|] eqn:Hf; simpl; [|right; eauto].
  destruct v as [q|lv|sd]; simpl; [right; eauto| |right; eauto].
  destruct (py_min lv) as [n|e] eqn:Hn; simpl; [|right; eauto].
  destruct (py_index lv n) as [k|e] eqn:Hk; simpl; [|right; eauto].
  destruct t as [q|lt|sd]; simpl; [right; eauto| |right; eauto].
  destruct f as [q|f1|sd]; simpl; [right; eauto| |right; eauto].
  destruct (py_max f1) as [m|e] eqn:Hm; simpl; [|right; eauto].
  destruct (py_index f1 m) as [i|e] eqn:Hi; simpl; [|right; eauto].
  left. exists ck, lv, lt, f1, i, m, k, n. eexists.
  do 6 (split; [done|]).
  split; [unfold after_plot; simpl; rewrite <- !app_assoc; reflexivity|].
  rewrite !Nat.add_1_r. by repeat split.
Qed.

Lemma py_max_nonempty l m : py_max l = Ok m -> l <> [].
Proof. by destruct l. Qed.

Lemma py_min_nonempty l m : py_min l = Ok m -> l <> [].
Proof. by destruct l. Qed.

Lemma Models_plot_keeps path name w :
  self (snd (Models_plot_training_metrics path name w)) = self w /\
  forall p,
    p <> str (root_folder (self w)) +:+ "/data/images/" +:+ name +:+ ".png" ->
    fs (snd (Models_plot_training_metrics path name w)) !! p = fs w !! p.
Proof.
  split; [apply keeps_Models_plot|]. intros p Hp.
  destruct (Models_plot_outcome path name w)
    as [(ck & lv & lt & f1 & i & m & fig & _ & _ & _ & _ & Hrun & _)
       |(e & Hfail)].
  - rewrite Hrun; simpl. by apply lookup_insert_ne.
  - by rewrite Hfail.
Qed.


(** ** Where the annotation sits *)

Lemma index_of_max_holds_max l i m :
  py_max l = Ok m -> py_index l m = Ok i -> l !! i = Some m.
Proof.
  intros Hm Hi.
  destruct (extremum_position l (py_max_nonempty _ _ Hm))
    as [(i' & m' & Hm' & Hi' & Hitem) _].
  rewrite Hm in Hm'. injection Hm' as <-.
  rewrite Hi in Hi'. by injection Hi' as <-.
Qed.

Lemma index_of_min_holds_min l i m :
  py_min l = Ok m -> py_index l m = Ok i -> l !! i = Some m.
Proof.
  intros Hm Hi.
  destruct (extremum_position l (py_min_nonempty _ _ Hm))
    as [_ (i' & m' & Hm' & Hi' & Hitem)].
  rewrite Hm in Hm'. injection Hm' as <-.
  rewrite Hi in Hi'. by injection Hi' as <-.
Qed.

(** X6. In the image [Models.plot_training_metrics] saves, the arrow tip is
    a point of the F1 curve: it is at epoch [i + 1] and at the value the F1
    list holds at the marked position [i]. The text box is at the same
    epoch, 0.015 below, and the text gives that epoch and that value rounded
    to three digits. *)
Theorem Models_plot_arrow_on_curve path name w w' :
  Models_plot_training_metrics path name w = (Ok tt, w') ->
  exists fig f1 i y,
    fs w' !! (str (root_folder (self w))
              +:+ "/data/images/" +:+ name +:+ ".png") = Some (ImageFile fig) /\
    curves fig !! 2%nat = Some (arange1 (length f1), f1) /\
    f1 !! i = Some y /\
    fig_markers fig = [("F1 Metric (Val)", i)] /\
    arrow_tips fig = [(S i, y)] /\
    text_anchors fig = [(S i, (y - (15 # 1000))%Q)] /\
    annotation_texts fig
      = [[Lit "Max F1 score after "; FmtInt (S i);
          Lit " epochs, equals: "; FmtRound y 3]].
Proof.
  intros Hrun.
  destruct (Models_plot_outcome path name w)
    as [(ck & lv & lt & f1 & i & m & fig & _ & _ & Hm & Hi & Hok & Hcurves
         & Hmark & Htip & Hanchor & Htext & _)
       |(e & Hfail)]; [|by rewrite Hrun in Hfail].
  rewrite Hrun in Hok. injection Hok as ->.
  exists fig, f1, i, m. split; [apply lookup_after_plot|].
  split; [by rewrite Hcurves|].
  split; [by apply index_of_max_holds_max|]. done.
Qed.

Lemma Models_plot_arrow_on_curve_witness :
  exists fig f1 i y,
    fs (snd (Models_plot_training_metrics
               "/home/u/proj/data/models/tie_best_f1.pth" "tie" Sample.w))
      !! "/home/u/proj/data/images/tie.png" = Some (ImageFile fig) /\
    curves fig !! 2%nat = Some (arange1 (length f1), f1) /\
    f1 !! i = Some y /\
    fig_markers fig = [("F1 Metric (Val)", i)] /\
    arrow_tips fig = [(S i, y)] /\
    text_anchors fig = [(S i, (y - (15 # 1000))%Q)] /\
    annotation_texts fig
      = [[Lit "Max F1 score after "; FmtInt (S i);
          Lit " epochs, equals: "; FmtRound y 3]].
Proof.
  apply (Models_plot_arrow_on_curve
           "/home/u/proj/data/models/tie_best_f1.pth" "tie" Sample.w).
  vm_compute; reflexivity.
Defined.

(** X7. In the image the standalone [plot_training_metrics] saves, the
    arrow tip is a point of the validation-loss curve: epoch [k + 1] and the
    value the list holds at the marked position [k]. The text box is 0.05
    above it, and its text reports the epoch and the value of the best F1,
    which is an item of the F1 list at position [i]. *)
Theorem plot_function_arrow_on_loss_curve path name dir w w' :
  plot_training_metrics path name dir w = (Ok tt, w') ->
  exists fig lv f1 k n i y,
    fs w' !! (dir +:+ "/" +:+ name +:+ ".png") = Some (ImageFile fig) /\
    curves fig !! 1%nat = Some (arange1 (length lv), lv) /\
    curves fig !! 2%nat = Some (arange1 (length f1), f1) /\
    lv !! k = Some n /\ f1 !! i = Some y /\
    fig_markers fig = [("Test loss", k)] /\
    arrow_tips fig = [(S k, n)] /\
    text_anchors fig = [(S k, (n + (5 # 100))%Q)] /\
    annotation_texts fig
      = [[Lit "Max F1 score after "; FmtInt (S i);
          Lit " epochs, equals: "; FmtFloat y]].
Proof.
  intros Hrun.
  destruct (plot_function_outcome path name dir w)
    as [(ck & lv & lt & f1 & i & m & k & n & fig & _ & _ & Hm & Hi & Hn & Hk
         & Hok & Hcurves & Hmark & Htip & Hanchor & Htext & _)
       |(e & Hfail)]; [|by rewrite Hrun in Hfail].
  rewrite Hrun in Hok. injection Hok as ->.
  exists fig, lv, f1, k, n, i, m. split; [apply lookup_after_plot|].
  split; [by rewrite Hcurves|]. split; [by rewrite Hcurves|].
  split; [by apply index_of_min_holds_min|].
  split; [by apply index_of_max_holds_max|]. done.
Qed.

Lemma plot_function_arrow_on_loss_curve_witness :
  exists fig lv f1 k n i y,
    fs (snd (plot_training_metrics
               "/home/u/proj/data/models/effb0_best_f1.pth" "net" "plots"
               Sample.w))
      !! "plots/net.png" = Some (ImageFile fig) /\
    curves fig !! 1%nat = Some (arange1 (length lv), lv) /\
    curves fig !! 2%nat = Some (arange1 (length f1), f1) /\
    lv !! k = Some n /\ f1 !! i = Some y /\
    fig_markers fig = [("Test loss", k)] /\
    arrow_tips fig = [(S k, n)] /\
    text_anchors fig = [(S k, (n + (5 # 100))%Q)] /\
    annotation_texts fig
      = [[Lit "Max F1 score after "; FmtInt (S i);
          Lit " epochs, equals: "; FmtFloat y]].
Proof.
  apply (plot_function_arrow_on_loss_curve
           "/home/u/proj/data/models/effb0_best_f1.pth" "net" "plots"
           Sample.w).
  vm_compute; reflexivity.
Defined.

(** ** Plotting twice *)

Lemma Models_plot_same path name w1 w2 :
  fs w1 !! path = fs w2 !! path ->
  root_folder (self w1) = root_folder (self w2) ->
  let out := str (root_folder (self w2))
             +:+ "/data/images/" +:+ name +:+ ".png" in
  fst (Models_plot_training_metrics path name w1)
  = fst (Models_plot_training_metrics path name w2) /\
  match fst (Models_plot_training_metrics path name w2) with
  | Ok _ =>
      exists fig,
        fs (snd (Models_plot_training_metrics path name w1))
          = <[out := ImageFile fig]> (fs w1) /\
        fs (snd (Models_plot_training_metrics path name w2))
          = <[out := ImageFile fig]> (fs w2)
  | Raise _ =>
      fs (snd (Models_plot_training_metrics path name w1)) = fs w1 /\
      fs (snd (Models_plot_training_metrics path name w2)) = fs w2
  end.
Proof.
  intros Hfile Hroot out. subst out. unfold_routines.
  rewrite Hfile.
  destruct (fs w2 !! path) as [[ck|img]|]; simpl; try done.
  destruct (ck !! "val_loss") as [v|]; simpl; try done.
  destruct (ck !! "train_loss") as [t|]; simpl; try done.
  destruct (ck !! "f1_metric_val") as [f|]; simpl; try done.
  destruct t as [q|lt|sd]; simpl; try done.
  destruct v as [q|lv|sd]; simpl; try done.
  destruct f as [q|f1|sd]; simpl; try done.
  destruct (py_max f1) as [m|e]; simpl; try done.
  destruct (py_index f1 m) as [i|e]; simpl; try done.
  rewrite Hroot. split; [done|]. by eexists.
Qed.

(** X9. Plotting the same checkpoint under the same name a second time
    with [Models.plot_training_metrics] changes nothing further, provided
    the image does not replace the checkpoint file: the outcome is the same
    and so is the file system. When the image path is the checkpoint path,
    a first plot that returns has put the image in the place of the
    checkpoint, and a second plot raises an unpickling error. *)
Theorem Models_plot_twice path name w :
  let out := str (root_folder (self w))
             +:+ "/data/images/" +:+ name +:+ ".png" in
  let once := Models_plot_training_metrics path name w in
  let twice := Models_plot_training_metrics path name (snd once) in
  (path <> out ->
   fst twice = fst once /\ fs (snd twice) = fs (snd once)) /\
  (path = out -> fst once = Ok tt ->
   fst twice = Raise (UnpicklingError path)).
Proof.
  intros out once twice.
  destruct (Models_plot_keeps path name w) as [Hself Hframe].
  fold out once in Hself, Hframe. split.
  - intros Hne.
    destruct (Models_plot_same path name (snd once) w) as [Hres Hfs].
    { by apply Hframe. }
    { by rewrite Hself. }
    fold once twice out in Hres, Hfs. split; [done|].
    destruct (fst once).
    + destruct Hfs as (fig & -> & ->). apply insert_insert_eq.
    + destruct Hfs as [-> ->]. done.
  - intros -> Hok. subst twice.
    destruct (Models_plot_outcome out name w)
      as [(ck & lv & lt & f1 & i & m & fig & _ & _ & _ & _ & Hrun & _)
         |(e & Hfail)].
    + subst once. rewrite Hrun; simpl.
      unfold_routines. fold out. by rewrite lookup_insert_eq.
    + subst once. by rewrite Hfail in Hok.
Qed.

Lemma Models_plot_twice_witness :
  fst (Models_plot_training_metrics
         "/home/u/proj/data/models/effb0_best_f1.pth" "net"
         (snd (Models_plot_training_metrics
                 "/home/u/proj/data/models/effb0_best_f1.pth" "net" Sample.w)))
  = fst (Models_plot_training_metrics
           "/home/u/proj/data/models/effb0_best_f1.pth" "net" Sample.w) /\
  fs (snd (Models_plot_training_metrics
             "/home/u/proj/data/models/effb0_best_f1.pth" "net"
             (snd (Models_plot_training_metrics
                     "/home/u/proj/data/models/effb0_best_f1.pth" "net"
                     Sample.w))))
  = fs (snd (Models_plot_training_metrics
               "/home/u/proj/data/models/effb0_best_f1.pth" "net" Sample.w)).
Proof.
  apply (proj1 (Models_plot_twice
                  "/home/u/proj/data/models/effb0_best_f1.pth" "net"
                  Sample.w)).
  intros Heq. by vm_compute in Heq.
Defined.

(** ** Fine-tuned preparation: when it returns and what it returns *)

Lemma sd_fits_resized a k sd :
  sd_fits (resized a k) sd = true <->
  sd_arch sd = a /\ sd_head_in sd = head_in_features a /\ sd_head_out sd = k.
Proof.
  unfold sd_fits.
  rewrite andb_true_iff, bool_decide_eq_true.
  destruct a; simpl; rewrite andb_true_iff, !Z.eqb_eq; tauto.
Qed.

Lemma prepare_finetuned_returns a m k w ck sd best :
  0 <= k ->
  fs w !! (str (download_folder (self w)) +:+ "/" +:+ m +:+ "_best_f1.pth")
    = Some (CheckpointFile ck) ->
  ck !! "model_state_dict" = Some (PyStateDict sd) ->
  sd_fits (resized a k) sd = true ->
  ck !! "best_val_f1" = Some best ->
  exists model,
    prepare_finetuned a m k w
    = (Ok model,
       registered (loaded w (str (download_folder (self w))
                             +:+ "/" +:+ m +:+ "_best_f1.pth")) m best) /\
    m_arch model = a /\
    m_training model = false /\
    m_device model = self_device (self w) /\
    m_backbone model = LoadedFrom (sd_values sd) /\
    final_layer model
    = Some (Linear (head_in_features a) k (LoadedFrom (sd_values sd))).
Proof.
  intros Hk Hfile Hsd Hfit Hbest.
  rewrite prepare_finetuned_resized by done.
  unfold restore_finetuned, torch_load, getitem, load_state_dict, bind,
    get_self, log, set_model_weight, ret; simpl.
  rewrite Hfile; simpl. rewrite Hsd; simpl. rewrite Hfit; simpl.
  rewrite Hbest; simpl.
  eexists. split; [reflexivity|]. by destruct a.
Qed.



(** X11. The model a fine-tuned preparation call returns is of the
    requested architecture, in evaluation mode and on the device chosen when
    the [Models] object was built. All its parameters are the ones stored in
    the checkpoint: neither the pretrained feature extractor nor the freshly
    initialised head survives. Its final layer keeps the input features of
    the architecture. *)
Theorem prepared_model_is_the_checkpoint a m k w model w' :
  prepare_finetuned a m k w = (Ok model, w') ->
  exists ck sd,
    fs w !! (str (download_folder (self w)) +:+ "/" +:+ m +:+ "_best_f1.pth")
      = Some (CheckpointFile ck) /\
    ck !! "model_state_dict" = Some (PyStateDict sd) /\
    m_arch model = a /\
    m_training model = false /\
    m_device model = self_device (self w) /\
    m_backbone model = LoadedFrom (sd_values sd) /\
    final_layer model
    = Some (Linear (head_in_features a) k (LoadedFrom (sd_values sd))).
Proof.
  intros Hrun.
  destruct (prepare_finetuned_outcome a m k w)
    as [(ck & sd & best & model' & Hk & Hfile & Hsd & Hfit & Hbest & _)
       |[(e & _ & Hfail)|(_ & Hfail)]];
    [|by rewrite Hrun in Hfail..].
  destruct (prepare_finetuned_returns a m k w ck sd best)
    as (model'' & Hrun' & Hprops); try done.
  rewrite Hrun in Hrun'. injection Hrun' as -> _.
  by exists ck, sd.
Qed.

Lemma prepared_model_is_the_checkpoint_witness :
  exists model ck sd,
    fst (prepare_finetuned efficientnet_b0 "effb0" 8 Sample.w) = Ok model /\
    fs Sample.w !! "/home/u/proj/data/models/effb0_best_f1.pth"
      = Some (CheckpointFile ck) /\
    ck !! "model_state_dict" = Some (PyStateDict sd) /\
    m_arch model = efficientnet_b0 /\
    m_training model = false /\
    m_device model = self_device (self Sample.w) /\
    m_backbone model = LoadedFrom (sd_values sd) /\
    final_layer model = Some (Linear 1280 8 (LoadedFrom (sd_values sd))).
Proof.
  eexists.
  edestruct (prepared_model_is_the_checkpoint efficientnet_b0 "effb0" 8
               Sample.w) as (ck & sd & Hprops).
  - vm_compute; reflexivity.
  - exists ck, sd. split; [vm_compute; reflexivity | exact Hprops].
Defined.

Lemma prepare_finetuned_keeps a m k w :
  fs (snd (prepare_finetuned a m k w)) = fs w /\
  download_folder (self (snd (prepare_finetuned a m k w)))
    = download_folder (self w) /\
  self_device (self (snd (prepare_finetuned a m k w)))
    = self_device (self w).
Proof.
  destruct (prepare_finetuned_outcome a m k w)
    as [(ck & sd & best & model' & _ & _ & _ & _ & _ & Hok & _)
       |[(e & _ & Hfail)|(_ & Hfail)]];
    [rewrite Hok | rewrite Hfail | rewrite Hfail]; done.
Qed.


(** X13. Two fine-tuned preparation calls for different model names can be
    made in either order: whatever the outcome of each, the registry ends up
    the same. *)
Theorem preparations_commute a1 m1 k1 a2 m2 k2 w :
  m1 <> m2 ->
  model_weights
    (self (snd (prepare_finetuned a2 m2 k2
                  (snd (prepare_finetuned a1 m1 k1 w)))))
  = model_weights
      (self (snd (prepare_finetuned a1 m1 k1
                    (snd (prepare_finetuned a2 m2 k2 w))))).
Proof.
  intros Hne.
  destruct (prepare_finetuned_keeps a1 m1 k1 w) as (Hfs1 & Hdf1 & Hdev1).
  destruct (prepare_finetuned_keeps a2 m2 k2 w) as (Hfs2 & Hdf2 & Hdev2).
  destruct (prepare_finetuned_same a2 m2 k2
              (snd (prepare_finetuned a1 m1 k1 w)) w Hfs1 Hdf1 Hdev1)
    as [_ H2].
  destruct (prepare_finetuned_same a1 m1 k1
              (snd (prepare_finetuned a2 m2 k2 w)) w Hfs2 Hdf2 Hdev2)
    as [_ H1].
  destruct (fst (prepare_finetuned a2 m2 k2 w));
    destruct (fst (prepare_finetuned a1 m1 k1 w)).
  - destruct H2 as (b2 & H21 & H2w). destruct H1 as (b1 & H12 & H1w).
    rewrite H21, H12, H1w, H2w. by apply insert_insert_ne.
  - destruct H2 as (b2 & H21 & H2w). destruct H1 as [H12 H1w].
    by rewrite H21, H12, H1w, H2w.
  - destruct H2 as [H21 H2w]. destruct H1 as (b1 & H12 & H1w).
    by rewrite H21, H12, H1w, H2w.
  - destruct H2 as [H21 H2w]. destruct H1 as [H12 H1w].
    by rewrite H21, H12, H1w, H2w.
Qed.

Lemma preparations_commute_witness :
  model_weights
    (self (snd (prepare_finetuned efficientnet_b0 "tie" 8
                  (snd (prepare_finetuned efficientnet_b0 "effb0" 8
                          Sample.w)))))
  = model_weights
      (self (snd (prepare_finetuned efficientnet_b0 "effb0" 8
                    (snd (prepare_finetuned efficientnet_b0 "tie" 8
                            Sample.w))))).
Proof.
  apply (preparations_commute efficientnet_b0 "effb0" 8
           efficientnet_b0 "tie" 8 Sample.w).
  discriminate.
Defined.

(** X15. A negative class count is rejected when the new head is built:
    [create_new_*] and [prepare_finetuned_*] both raise a RuntimeError and
    leave the world exactly as it was; in particular a preparation call has
    not yet asked for the checkpoint file. *)
Theorem negative_class_count_rejected a m k w :
  k < 0 ->
  create_new a k w = (Raise RuntimeError, w) /\
  prepare_finetuned a m k w = (Raise RuntimeError, w).
Proof.
  intros Hk. split.
  - by apply create_new_negative.
  - by apply prepare_finetuned_negative.
Qed.

Lemma negative_class_count_rejected_witness :
  create_new shufflenet_v2_x2_0 (-1) Sample.w = (Raise RuntimeError, Sample.w) /\
  prepare_finetuned shufflenet_v2_x2_0 "effb0" (-1) Sample.w
  = (Raise RuntimeError, Sample.w).
Proof. apply (negative_class_count_rejected shufflenet_v2_x2_0 "effb0" (-1)). lia. Defined.

(** ** Building the object *)

Lemma parent_snoc abs l x :
  parent {| absolute := abs; parts := l ++ [x] |}
  = {| absolute := abs; parts := l |}.
Proof. unfold parent; simpl. by rewrite removelast_last. Qed.

(** X16. For a module file that lies at least two directories deep
    ([<base>/<d1>/<d2>/<file>]), [Models.__init__] takes [<base>] as root
    folder and [<base>/data/models] as download folder; the object starts
    with an empty registry and the image size 224 x 224. When [<base>] has
    at least one component, the download folder prints as the root folder
    followed by ["/data/models"]. Without kaggle credentials no object is
    built. *)
Theorem Models_init_folders abs base d1 d2 f cuda_available :
  let file := {| absolute := abs; parts := base ++ [d1; d2; f] |} in
  Models_init file false cuda_available = Raise AuthenticationError /\
  exists s,
    Models_init file true cuda_available = Ok s /\
    root_folder s = {| absolute := abs; parts := base |} /\
    download_folder s
      = {| absolute := abs; parts := base ++ ["data"; "models"] |} /\
    (base <> [] ->
     str (download_folder s) = str (root_folder s) +:+ "/data/models") /\
    size_tuple s = (224, 224) /\
    self_device s = (if cuda_available then cuda else cpu) /\
    model_weights s = ∅.
Proof.
  intros file. split; [done|].
  assert (Hroot : parent (parent (parent file))
                  = {| absolute := abs; parts := base |}).
  { unfold file.
    replace (base ++ [d1; d2; f]) with (((base ++ [d1]) ++ [d2]) ++ [f])
      by (by rewrite <- !app_assoc).
    by rewrite !parent_snoc. }
  eexists. split; [reflexivity|]. simpl. rewrite Hroot.
  split; [done|]. split.
  - unfold truediv; simpl. by rewrite <- app_assoc.
  - split; [|done]. intros Hne.
    rewrite (str_truediv (truediv _ "data"))
      by (simpl; intros [_ ?]%app_eq_nil; done).
    rewrite str_truediv by done.
    by rewrite <- !string_app_assoc.
Qed.

(** ** Lengths are never compared *)

(** X19. The plotting routines never compare the lengths of the three
    sequences. Given a non-empty F1 list (and, for the standalone routine, a
    non-empty list of validation losses), each curve is drawn against the
    epochs 1 .. its own length, and the number of epochs in the title is the
    number of training losses, whatever the other two lengths are. *)
Theorem plots_do_not_compare_lengths path name dir w ck lv lt f1 :
  fs w !! path = Some (CheckpointFile ck) ->
  has_metrics ck lv lt f1 ->
  f1 <> [] ->
  (exists w' fig,
     Models_plot_training_metrics path name w = (Ok tt, w') /\
     fs w' !! (str (root_folder (self w))
               +:+ "/data/images/" +:+ name +:+ ".png") = Some (ImageFile fig) /\
     curves fig = [(seq 1 (length lt), lt); (seq 1 (length lv), lv);
                   (seq 1 (length f1), f1)] /\
     title fig = [FmtStr name; Lit " - Train and Val loss, F1 Metric after ";
                  FmtInt (length lt); Lit " epochs"]) /\
  (lv <> [] ->
   exists w' fig,
     plot_training_metrics path name dir w = (Ok tt, w') /\
     fs w' !! (dir +:+ "/" +:+ name +:+ ".png") = Some (ImageFile fig) /\
     curves fig = [(seq 1 (length lt), lt); (seq 1 (length lv), lv);
                   (seq 1 (length f1), f1)] /\
     title fig = [Lit "Train and Val loss, F1 Metric after ";
                  FmtInt (length lt); Lit " epochs"]).
Proof.
  intros Hfile Hck Hne.
  assert (Hsame : forall ck' lv' lt' f1',
            Some (CheckpointFile ck) = Some (CheckpointFile ck') ->
            has_metrics ck' lv' lt' f1' ->
            lv' = lv /\ lt' = lt /\ f1' = f1).
  { intros ck' lv' lt' f1' Heq (Hv' & Ht' & Hf'). injection Heq as <-.
    destruct Hck as (Hv & Ht & Hf).
    rewrite Hv in Hv'. rewrite Ht in Ht'. rewrite Hf in Hf'.
    by simplify_eq. }
  split.
  - destruct (Models_plot_valid path name w ck lv lt f1)
      as (fig0 & i0 & Hrun & _); try done.
    destruct (Models_plot_outcome path name w)
      as [(ck' & lv' & lt' & f1' & i & m & fig & Hfile' & Hck' & _ & _ & Hok
           & Hcurves & _ & _ & _ & _ & _ & _ & _ & Htitle)
         |(e & Hfail)]; [|by rewrite Hrun in Hfail].
    rewrite Hfile in Hfile'.
    destruct (Hsame _ _ _ _ Hfile' Hck') as (-> & -> & ->).
    eexists _, fig. split; [exact Hok|].
    split; [apply lookup_after_plot|]. by split.
  - intros Hnv.
    destruct (plot_function_valid path name dir w ck lv lt f1)
      as (fig0 & i0 & k0 & Hrun & _); try done.
    destruct (plot_function_outcome path name dir w)
      as [(ck' & lv' & lt' & f1' & i & m & k & n & fig & Hfile' & Hck'
           & _ & _ & _ & _ & Hok & Hcurves & _ & _ & _ & _ & _ & Htitle)
         |(e & Hfail)]; [|by rewrite Hrun in Hfail].
    rewrite Hfile in Hfile'.
    destruct (Hsame _ _ _ _ Hfile' Hck') as (-> & -> & ->).
    eexists _, fig. split; [exact Hok|].
    split; [apply lookup_after_plot|]. by split.
Qed.

Lemma plots_do_not_compare_lengths_witness :
  exists w' fig,
    Models_plot_training_metrics
      "/home/u/proj/data/models/short_best_f1.pth" "short" Sample.w
    = (Ok tt, w') /\
    fs w' !! "/home/u/proj/data/images/short.png" = Some (ImageFile fig) /\
    curves fig = [([], []); ([1; 2; 3]%nat, Sample.val_loss);
                  ([1; 2; 3]%nat, Sample.f1)] /\
    title fig = [FmtStr "short";
                 Lit " - Train and Val loss, F1 Metric after ";
                 FmtInt 0; Lit " epochs"].
Proof.
  apply (plots_do_not_compare_lengths
           "/home/u/proj/data/models/short_best_f1.pth" "short" "plots"
           Sample.w Sample.no_train_loss Sample.val_loss [] Sample.f1).
  - vm_compute; reflexivity.
  - repeat split; vm_compute; reflexivity.
  - discriminate.
Defined.

(** * Calls that return, the keys of the registry and the disk *)

(** ** A loadable checkpoint is loaded *)

Lemma loadable_returns a m k w best :
  loadable w a m k best ->
  exists model,
    prepare_finetuned a m k w
    = (Ok model,
       registered (loaded w (str (download_folder (self w))
                             +:+ "/" +:+ m +:+ "_best_f1.pth")) m best) /\
    output_dim model = Some k.
Proof.
  intros (Hk & ck & sd & Hfile & Hsd & Ha & Hin & Hout & Hbest).
  destruct (prepare_finetuned_returns a m k w ck sd best)
    as (model & Hrun & _); try done.
  { by apply sd_fits_resized. }
  exists model. split; [done|].
  destruct (prepare_finetuned_outcome a m k w)
    as [(ck' & sd' & best' & model' & _ & _ & _ & _ & _ & Hok & Hdim)
       |[(e & _ & Hfail)|(_ & Hfail)]];
    [|by rewrite Hrun in Hfail..].
  rewrite Hrun in Hok. by injection Hok as -> _.
Qed.

Lemma zoo_loadable a :
  loadable Zoo.w a (Zoo.name_of a) 8 (PyFloat (9 # 10)) /\
  loadable Zoo.stale a (Zoo.name_of a) 8 (PyFloat (9 # 10)).
Proof.
  split; (split; [lia|]);
    exists (Zoo.checkpoint a), (Zoo.weights_of a);
    destruct a; repeat split; vm_compute; reflexivity.
Qed.

(** C1. A fine-tuned preparation call for model name [m], of any of the
    four architectures, that finds a checkpoint it can restore returns, and
    after it the registry maps [m] to exactly the value the checkpoint holds
    under ["best_val_f1"]. Conversely, whenever such a call returns, the
    file it read is a checkpoint and the registry maps [m] to its
    ["best_val_f1"] value. *)
Theorem registry_records_best_f1 a m k w :
  (forall best,
     loadable w a m k best ->
     exists model w',
       prepare_finetuned a m k w = (Ok model, w') /\
       model_weights (self w') !! m = Some best) /\
  (forall model w',
     prepare_finetuned a m k w = (Ok model, w') ->
     exists ck best,
       fs w !! (str (download_folder (self w)) +:+ "/" +:+ m +:+ "_best_f1.pth")
         = Some (CheckpointFile ck) /\
       ck !! "best_val_f1" = Some best /\
       model_weights (self w') !! m = Some best).
Proof.
  split.
  - intros best Hload.
    destruct (loadable_returns a m k w best Hload) as (model & Hrun & _).
    eexists model, _. split; [exact Hrun|].
    simpl. apply lookup_insert_eq.
  - intros model w' Hrun.
    destruct (prepare_finetuned_outcome a m k w)
      as [(ck & sd & best & model' & _ & Hfile & _ & _ & Hbest & Hok & _)
         |[(e & _ & Hfail)|(_ & Hfail)]];
      rewrite Hrun in *; simplify_eq.
    exists ck, best. repeat split; try done.
    simpl. apply lookup_insert_eq.
Qed.

Lemma registry_records_best_f1_witness :
  (exists model w',
     prepare_finetuned efficientnet_b0 "b0" 8 Zoo.w = (Ok model, w') /\
     model_weights (self w') !! "b0" = Some (PyFloat (9 # 10))) /\
  (exists model w',
     prepare_finetuned efficientnet_b1 "b1" 8 Zoo.w = (Ok model, w') /\
     model_weights (self w') !! "b1" = Some (PyFloat (9 # 10))) /\
  (exists model w',
     prepare_finetuned mobilenet_v3_large "mnet" 8 Zoo.w = (Ok model, w') /\
     model_weights (self w') !! "mnet" = Some (PyFloat (9 # 10))) /\
  (exists model w',
     prepare_finetuned shufflenet_v2_x2_0 "shuf" 8 Zoo.w = (Ok model, w') /\
     model_weights (self w') !! "shuf" = Some (PyFloat (9 # 10))).
Proof.
  split; [|split; [|split]].
  - apply (proj1 (registry_records_best_f1 efficientnet_b0 "b0" 8 Zoo.w)).
    apply (zoo_loadable efficientnet_b0).
  - apply (proj1 (registry_records_best_f1 efficientnet_b1 "b1" 8 Zoo.w)).
    apply (zoo_loadable efficientnet_b1).
  - apply (proj1 (registry_records_best_f1 mobilenet_v3_large "mnet" 8 Zoo.w)).
    apply (zoo_loadable mobilenet_v3_large).
  - apply (proj1 (registry_records_best_f1 shufflenet_v2_x2_0 "shuf" 8 Zoo.w)).
    apply (zoo_loadable shufflenet_v2_x2_0).
Defined.

(** ** The size of the final layer *)

(** C2. The model a creation call returns for class count [k] has a final
    classification layer of output dimension exactly [k]. This holds of
    every model a [create_new_*] or [prepare_finetuned_*] call returns; and
    such models are returned: by [create_new_*] for every class count from 0
    up to the 1000 classes of the layer it replaces, and by
    [prepare_finetuned_*] whenever the checkpoint can be restored, for each
    of the four architectures. *)
Theorem final_layer_has_num_classes a k :
  (forall w model w',
     create_new a k w = (Ok model, w') -> output_dim model = Some k) /\
  (forall m w model w',
     prepare_finetuned a m k w = (Ok model, w') -> output_dim model = Some k) /\
  (forall w,
     0 <= k <= 1000 ->
     exists model w',
       create_new a k w = (Ok model, w') /\ output_dim model = Some k) /\
  (forall m w best,
     loadable w a m k best ->
     exists model w',
       prepare_finetuned a m k w = (Ok model, w') /\
       output_dim model = Some k).
Proof.
  split; [|split; [|split]].
  - intros w model w' Hrun. destruct (Z.lt_ge_cases k 0) as [Hneg|Hk].
    + by rewrite create_new_negative in Hrun.
    + rewrite create_new_resized in Hrun by done. simplify_eq.
      apply (output_dim_resized a k).
  - intros m w model w' Hrun.
    destruct (prepare_finetuned_outcome a m k w)
      as [(ck & sd & best & model' & _ & _ & _ & _ & _ & Hok & Hdim)
         |[(e & _ & Hfail)|(_ & Hfail)]];
      rewrite Hrun in *; by simplify_eq.
  - intros w [Hk _]. rewrite create_new_resized by done.
    eexists _, _. split; [reflexivity|]. apply (output_dim_resized a k).
  - intros m w best Hload.
    destruct (loadable_returns a m k w best Hload) as (model & Hrun & Hdim).
    by eexists model, _.
Qed.

Lemma final_layer_has_num_classes_witness :
  ((exists model w',
      create_new efficientnet_b0 8 Zoo.w = (Ok model, w') /\
      output_dim model = Some 8) /\
   (exists model w',
      create_new efficientnet_b1 8 Zoo.w = (Ok model, w') /\
      output_dim model = Some 8) /\
   (exists model w',
      create_new mobilenet_v3_large 8 Zoo.w = (Ok model, w') /\
      output_dim model = Some 8) /\
   (exists model w',
      create_new shufflenet_v2_x2_0 8 Zoo.w = (Ok model, w') /\
      output_dim model = Some 8)) /\
  ((exists model w',
      prepare_finetuned efficientnet_b0 "b0" 8 Zoo.w = (Ok model, w') /\
      output_dim model = Some 8) /\
   (exists model w',
      prepare_finetuned efficientnet_b1 "b1" 8 Zoo.w = (Ok model, w') /\
      output_dim model = Some 8) /\
   (exists model w',
      prepare_finetuned mobilenet_v3_large "mnet" 8 Zoo.w = (Ok model, w') /\
      output_dim model = Some 8) /\
   (exists model w',
      prepare_finetuned shufflenet_v2_x2_0 "shuf" 8 Zoo.w = (Ok model, w') /\
      output_dim model = Some 8)).
Proof.
  split; (split; [|split; [|split]]).
  - apply (proj1 (proj2 (proj2 (final_layer_has_num_classes efficientnet_b0 8)))).
    lia.
  - apply (proj1 (proj2 (proj2 (final_layer_has_num_classes efficientnet_b1 8)))).
    lia.
  - apply (proj1 (proj2 (proj2 (final_layer_has_num_classes mobilenet_v3_large 8)))).
    lia.
  - apply (proj1 (proj2 (proj2 (final_layer_has_num_classes shufflenet_v2_x2_0 8)))).
    lia.
  - apply (proj2 (proj2 (proj2 (final_layer_has_num_classes efficientnet_b0 8)))
             "b0" Zoo.w (PyFloat (9 # 10))).
    apply (zoo_loadable efficientnet_b0).
  - apply (proj2 (proj2 (proj2 (final_layer_has_num_classes efficientnet_b1 8)))
             "b1" Zoo.w (PyFloat (9 # 10))).
    apply (zoo_loadable efficientnet_b1).
  - apply (proj2 (proj2 (proj2 (final_layer_has_num_classes mobilenet_v3_large 8)))
             "mnet" Zoo.w (PyFloat (9 # 10))).
    apply (zoo_loadable mobilenet_v3_large).
  - apply (proj2 (proj2 (proj2 (final_layer_has_num_classes shufflenet_v2_x2_0 8)))
             "shuf" Zoo.w (PyFloat (9 # 10))).
    apply (zoo_loadable shufflenet_v2_x2_0).
Defined.

(** ** Loading again *)

(** C10. A fine-tuned preparation call for model name [m] that finds a
    checkpoint it can restore returns and leaves the registry as it was,
    except that [m] now maps to the checkpoint's ["best_val_f1"] value,
    whatever [m] mapped to before: the last load wins. The same call made a
    second time, the checkpoint being what it was, returns the same model
    and leaves the registry as the first call left it. Whatever the outcome
    of a call, making it twice gives the same outcome and the same registry
    as making it once; and a call that returns has read a checkpoint whose
    ["best_val_f1"] it put under [m]. *)
Theorem last_load_wins a m k w :
  (forall best,
     loadable w a m k best ->
     exists model w1 w2,
       prepare_finetuned a m k w = (Ok model, w1) /\
       model_weights (self w1) = <[m := best]> (model_weights (self w)) /\
       model_weights (self w1) !! m = Some best /\
       prepare_finetuned a m k w1 = (Ok model, w2) /\
       model_weights (self w2) = model_weights (self w1)) /\
  (forall model w',
     prepare_finetuned a m k w = (Ok model, w') ->
     exists ck best,
       fs w !! (str (download_folder (self w)) +:+ "/" +:+ m +:+ "_best_f1.pth")
         = Some (CheckpointFile ck) /\
       ck !! "best_val_f1" = Some best /\
       model_weights (self w') = <[m := best]> (model_weights (self w))) /\
  (let once := prepare_finetuned a m k w in
   let twice := prepare_finetuned a m k (snd once) in
   fs (snd once) = fs w /\
   fst twice = fst once /\
   model_weights (self (snd twice)) = model_weights (self (snd once))).
Proof.
  assert (Htwice :
    let once := prepare_finetuned a m k w in
    let twice := prepare_finetuned a m k (snd once) in
    fs (snd once) = fs w /\
    fst twice = fst once /\
    model_weights (self (snd twice)) = model_weights (self (snd once))).
  { intros once twice.
    assert (Hframe : fs (snd once) = fs w /\
                     download_folder (self (snd once)) = download_folder (self w) /\
                     self_device (self (snd once)) = self_device (self w)).
    { subst once.
      destruct (prepare_finetuned_outcome a m k w)
        as [(ck & sd & best & model' & _ & _ & _ & _ & _ & Hok & _)
           |[(e & _ & Hfail)|(_ & Hfail)]];
        [rewrite Hok | rewrite Hfail | rewrite Hfail]; done. }
    destruct Hframe as (Hfs & Hdf & Hdev). split; [done|].
    destruct (prepare_finetuned_same a m k (snd once) w Hfs Hdf Hdev)
      as [Hres Hreg].
    split; [exact Hres|]. fold once twice in Hreg.
    destruct (fst once).
    + destruct Hreg as (best & -> & ->). apply insert_insert_eq.
    + by destruct Hreg as [-> ?]. }
  split; [|split; [|exact Htwice]].
  - intros best Hload.
    destruct (loadable_returns a m k w best Hload) as (model & Hrun & _).
    remember (registered (loaded w (str (download_folder (self w))
                                    +:+ "/" +:+ m +:+ "_best_f1.pth"))
                         m best) as w1 eqn:Hw1.
    destruct Htwice as (_ & Hres & Hreg). rewrite Hrun in Hres, Hreg.
    cbn [fst snd] in Hres, Hreg.
    destruct (prepare_finetuned a m k w1) as [r2 w2] eqn:Hrun2.
    cbn [fst snd] in Hres, Hreg. subst r2.
    exists model, w1, w2. split; [exact Hrun|].
    split; [by subst w1|].
    split; [subst w1; simpl; apply lookup_insert_eq|].
    split; [done | exact Hreg].
  - intros model w' Hrun.
    destruct (prepare_finetuned_outcome a m k w)
      as [(ck & sd & best & model' & _ & Hfile & _ & _ & Hbest & Hok & _)
         |[(e & _ & Hfail)|(_ & Hfail)]];
      rewrite Hrun in *; simplify_eq.
    by exists ck, best.
Qed.

Lemma last_load_wins_witness :
  (model_weights (self Zoo.stale) !! "b1" = Some (PyFloat (1 # 10)) /\
   exists model w1 w2,
     prepare_finetuned efficientnet_b1 "b1" 8 Zoo.stale = (Ok model, w1) /\
     model_weights (self w1)
       = <["b1" := PyFloat (9 # 10)]> (model_weights (self Zoo.stale)) /\
     model_weights (self w1) !! "b1" = Some (PyFloat (9 # 10)) /\
     prepare_finetuned efficientnet_b1 "b1" 8 w1 = (Ok model, w2) /\
     model_weights (self w2) = model_weights (self w1)) /\
  (model_weights (self Zoo.stale) !! "shuf" = Some (PyFloat (1 # 10)) /\
   exists model w1 w2,
     prepare_finetuned shufflenet_v2_x2_0 "shuf" 8 Zoo.stale = (Ok model, w1) /\
     model_weights (self w1)
       = <["shuf" := PyFloat (9 # 10)]> (model_weights (self Zoo.stale)) /\
     model_weights (self w1) !! "shuf" = Some (PyFloat (9 # 10)) /\
     prepare_finetuned shufflenet_v2_x2_0 "shuf" 8 w1 = (Ok model, w2) /\
     model_weights (self w2) = model_weights (self w1)).
Proof.
  split; (split; [vm_compute; reflexivity|]).
  - apply (proj1 (last_load_wins efficientnet_b1 "b1" 8 Zoo.stale)).
    apply (zoo_loadable efficientnet_b1).
  - apply (proj1 (last_load_wins shufflenet_v2_x2_0 "shuf" 8 Zoo.stale)).
    apply (zoo_loadable shufflenet_v2_x2_0).
Defined.

(** ** The keys of the registry *)


Lemma zoo_absent_not_registered :
  model_weights (self (attempts Zoo.script_with_failure Zoo.w)) !! "absent"
  = None.
Proof. vm_compute; reflexivity. Qed.




(** ** Equal maxima *)

(** C9 as stated fails for the standalone routine: in the sample checkpoint
    the greatest F1 is reached at positions 1 and 2, the earlier being 1,
    but the marker is at position 2 and the arrow at epoch 3, where the
    validation loss is least. Only the text names epoch 2. *)
Lemma standalone_tie_marks_least_loss :
  exists w' fig,
    plot_training_metrics
      "/home/u/proj/data/models/tie_best_f1.pth" "tie" "plots" Sample.w
      = (Ok tt, w') /\
    fs w' !! "plots/tie.png" = Some (ImageFile fig) /\
    attains_max Sample.f1_tie 1 /\ attains_max Sample.f1_tie 2 /\
    fig_markers fig = [("Test loss", 2%nat)] /\
    arrow_epochs fig = [3%nat] /\
    text_epochs fig = [2%nat] /\
    ~ marks_earliest_best Sample.f1_tie fig.
Proof.
  eexists _, _. split; [vm_compute; reflexivity|].
  split; [vm_compute; reflexivity|].
  split; [apply sample_tie_attains; lia|].
  split; [apply sample_tie_attains; lia|].
  split; [reflexivity|]. split; [reflexivity|]. split; [reflexivity|].
  intros (i & _ & Hleast & Hmark & _).
  assert (i = 2%nat) by (vm_compute in Hmark; congruence); subst i.
  assert (H1 : attains_max Sample.f1_tie 1) by (apply sample_tie_attains; lia).
  apply Hleast in H1. lia.
Qed.

(** C9, as amended. When the greatest F1 value occurs at more than one
    epoch, the earliest of them is the annotated one in
    [Models.plot_training_metrics]: for the marker, the arrow and the epoch
    number in the text. The standalone routine prints that earliest epoch in
    its annotation text, while its marker and its arrow are at the first
    minimum of the validation loss. *)
Theorem tie_marks_earliest path name dir w ck lv lt f1 j1 j2 :
  fs w !! path = Some (CheckpointFile ck) ->
  has_metrics ck lv lt f1 ->
  attains_max f1 j1 -> attains_max f1 j2 -> (j1 < j2)%nat ->
  exists i,
    attains_max f1 i /\ (forall j, attains_max f1 j -> (i <= j)%nat) /\
    (i <= j1)%nat /\
    (exists w' fig,
       Models_plot_training_metrics path name w = (Ok tt, w') /\
       fs w' !! (str (root_folder (self w))
                 +:+ "/data/images/" +:+ name +:+ ".png")
         = Some (ImageFile fig) /\
       marks_earliest_best f1 fig /\
       fig_markers fig = [("F1 Metric (Val)", i)] /\
       arrow_epochs fig = [S i] /\ text_epochs fig = [S i]) /\
    (lv <> [] ->
     exists w' fig k,
       plot_training_metrics path name dir w = (Ok tt, w') /\
       fs w' !! (dir +:+ "/" +:+ name +:+ ".png") = Some (ImageFile fig) /\
       text_epochs fig = [S i] /\
       is_first_argmin lv k /\
       fig_markers fig = [("Test loss", k)] /\
       arrow_epochs fig = [S k]).
Proof.
  intros Hfile Hck (y1 & Hy1 & Hmax1) _ _.
  assert (Hne : f1 <> []) by (intros ->; by rewrite lookup_nil in Hy1).
  destruct (Models_plot_valid path name w ck lv lt f1)
    as (fig & i & Hrun & Hi & Hmark & Harrow & Htext & _); try done.
  destruct (first_argmax_least _ _ Hi) as [Hat Hleast].
  exists i. split; [done|]. split; [done|].
  split; [apply Hleast; by exists y1|]. split.
  - eexists _, fig. split; [exact Hrun|].
    split; [apply lookup_after_plot|].
    split; [|done]. exists i. rewrite Hmark. by repeat split.
  - intros Hnv.
    destruct (plot_function_valid path name dir w ck lv lt f1)
      as (fig' & i' & k & Hrun' & Hi' & Hk & Hmark' & Harrow' & Htext' & _);
      try done.
    rewrite (is_first_argmax_unique _ _ _ Hi Hi').
    eexists _, fig', k. split; [exact Hrun'|].
    split; [apply lookup_after_plot | done].
Qed.

Lemma tie_marks_earliest_witness :
  exists i,
    attains_max Sample.f1_tie i /\
    (forall j, attains_max Sample.f1_tie j -> (i <= j)%nat) /\
    (i <= 1)%nat /\
    (exists w' fig,
       Models_plot_training_metrics
         "/home/u/proj/data/models/tie_best_f1.pth" "tie" Sample.w
         = (Ok tt, w') /\
       fs w' !! "/home/u/proj/data/images/tie.png" = Some (ImageFile fig) /\
       marks_earliest_best Sample.f1_tie fig /\
       fig_markers fig = [("F1 Metric (Val)", i)] /\
       arrow_epochs fig = [S i] /\ text_epochs fig = [S i]) /\
    (Sample.val_loss <> [] ->
     exists w' fig k,
       plot_training_metrics
         "/home/u/proj/data/models/tie_best_f1.pth" "tie" "plots" Sample.w
         = (Ok tt, w') /\
       fs w' !! "plots/tie.png" = Some (ImageFile fig) /\
       text_epochs fig = [S i] /\
       is_first_argmin Sample.val_loss k /\
       fig_markers fig = [("Test loss", k)] /\
       arrow_epochs fig = [S k]).
Proof.
  apply (tie_marks_earliest
           "/home/u/proj/data/models/tie_best_f1.pth" "tie" "plots" Sample.w
           (Sample.checkpoint Sample.f1_tie (8 # 10))
           Sample.val_loss Sample.train_loss Sample.f1_tie 1 2).
  - vm_compute; reflexivity.
  - repeat split; vm_compute; reflexivity.
  - apply sample_tie_attains; lia.
  - apply sample_tie_attains; lia.
  - lia.
Defined.

(** ** Saving the image on a disk with directories *)

(** Up to the call of [plt.savefig] the routines do the same whatever
    [plt.savefig] does. *)
Lemma Models_plot_via_outcome path name w :
  let out := str (root_folder (self w))
             +:+ "/data/images/" +:+ name +:+ ".png" in
  (exists ck lv lt f1 fig,
     fs w !! path = Some (CheckpointFile ck) /\
     has_metrics ck lv lt f1 /\ f1 <> [] /\
     curves fig = [(arange1 (length lt), lt); (arange1 (length lv), lv);
                   (arange1 (length f1), f1)] /\
     forall save,
       Models_plot_training_metrics_via save path name w
       = save out fig (loaded w path)) \/
  (exists e,
     (forall ck lv lt f1,
        fs w !! path = Some (CheckpointFile ck) ->
        has_metrics ck lv lt f1 -> f1 = []) /\
     forall save,
       Models_plot_training_metrics_via save path name w
       = (Raise e, loaded w path)).
Proof.
  intros out.
  unfold Models_plot_training_metrics_via, torch_load, getitem, index_of_max,
    log, get_self, as_list, lift, bind, ret, raise, has_metrics; simpl.
  destruct (fs w !! path) as [[ck|img]|] eqn:Hfile; simpl;
    [|right; eexists; split; [intros; simplify_eq | reflexivity]..].
  destruct (ck !! "val_loss") as [v|] eqn:Hv; simpl;
    [|right; eexists; split;
      [intros ???? ? (?&?&?); simplify_eq | reflexivity]].
  destruct (ck !! "train_loss") as [t|] eqn:Ht; simpl;
    [|right; eexists; split;
      [intros ???? ? (?&?&?); simplify_eq | reflexivity]].
  destruct (ck !! "f1_metric_val") as [f|] eqn:Hf; simpl;
    [|right; eexists; split;
      [intros ???? ? (?&?&?); simplify_eq | reflexivity]].
  destruct t as [q|lt|sd]; simpl;
    [right; eexists; split;
      [intros ???? ? (?&?&?); simplify_eq | reflexivity]
    | |right; eexists; split;
      [intros ???? ? (?&?&?); simplify_eq | reflexivity]].
  destruct v as [q|lv|sd]; simpl;
    [right; eexists; split;
      [intros ???? ? (?&?&?); simplify_eq | reflexivity]
    | |right; eexists; split;
      [intros ???? ? (?&?&?); simplify_eq | reflexivity]].
  destruct f as [q|f1|sd]; simpl;
    [right; eexists; split;
      [intros ???? ? (?&?&?); simplify_eq | reflexivity]
    | |right; eexists; split;
      [intros ???? ? (?&?&?); simplify_eq | reflexivity]].
  destruct f1 as [|x f1'].
  { right. eexists. split; [|reflexivity].
    intros ???? ? (?&?&?). by simplify_eq. }
  destruct (index_of_max_first (x :: f1')) as (i & m & Hm & Hi & _); [done|].
  rewrite Hm; simpl. rewrite Hi; simpl.
  left. exists ck, lv, lt, (x :: f1'). eexists.
  split; [done|]. split; [done|]. split; [done|].
  split; [|intros save; reflexivity]. reflexivity.
Qed.

Lemma plot_function_via_outcome path name dir w :
  let out := dir +:+ "/" +:+ name +:+ ".png" in
  (exists ck lv lt f1 fig,
     fs w !! path = Some (CheckpointFile ck) /\
     has_metrics ck lv lt f1 /\ lv <> [] /\ f1 <> [] /\
     curves fig = [(arange1 (length lt), lt); (arange1 (length lv), lv);
                   (arange1 (length f1), f1)] /\
     forall save,
       plot_training_metrics_via save path name dir w
       = bind (save out fig)
              (fun _ => log (EvPrint [Lit "Plot saved to "; FmtStr out]))
              (loaded w path)) \/
  (exists e,
     (forall ck lv lt f1,
        fs w !! path = Some (CheckpointFile ck) ->
        has_metrics ck lv lt f1 -> lv = [] \/ f1 = []) /\
     forall save,
       plot_training_metrics_via save path name dir w
       = (Raise e, loaded w path)).
Proof.
  intros out.
  unfold plot_training_metrics_via, torch_load, getitem, index_of_max,
    index_of_min, log, get_self, as_list, lift, bind, ret, raise,
    has_metrics; simpl.
  destruct (fs w !! path) as [[ck|img]|] eqn:Hfile; simpl;
    [|right; eexists; split; [intros; simplify_eq | reflexivity]..].
  destruct (ck !! "val_loss") as [v|] eqn:Hv; simpl;
    [|right; eexists; split;
      [intros ???? ? (?&?&?); simplify_eq | reflexivity]].
  destruct (ck !! "train_loss") as [t|] eqn:Ht; simpl;
    [|right; eexists; split;
      [intros ???? ? (?&?&?); simplify_eq | reflexivity]].
  destruct (ck !! "f1_metric_val") as [f|] eqn:Hf; simpl;
    [|right; eexists; split;
      [intros ???? ? (?&?&?); simplify_eq | reflexivity]].
  destruct v as [q|lv|sd]; simpl;
    [right; eexists; split;
      [intros ???? ? (?&?&?); simplify_eq | reflexivity]
    | |right; eexists; split;
      [intros ???? ? (?&?&?); simplify_eq | reflexivity]].
  destruct lv as [|y lv'].
  { right. eexists. split; [|reflexivity].
    intros ???? ? (?&?&?). left. by simplify_eq. }
  destruct (index_of_min_first (y :: lv')) as (k & n & Hn & Hk & _); [done|].
  rewrite Hn; simpl. rewrite Hk; simpl.
  destruct t as [q|lt|sd]; simpl;
    [right; eexists; split;
      [intros ???? ? (?&?&?); simplify_eq | reflexivity]
    | |right; eexists; split;
      [intros ???? ? (?&?&?); simplify_eq | reflexivity]].
  destruct f as [q|f1|sd]; simpl;
    [right; eexists; split;
      [intros ???? ? (?&?&?); simplify_eq | reflexivity]
    | |right; eexists; split;
      [intros ???? ? (?&?&?); simplify_eq | reflexivity]].
  destruct f1 as [|x f1'].
  { right. eexists. split; [|reflexivity].
    intros ???? ? (?&?&?). right. by simplify_eq. }
  destruct (index_of_max_first (x :: f1')) as (i & m & Hm & Hi & _); [done|].
  rewrite Hm; simpl. rewrite Hi; simpl.
  left. exists ck, (y :: lv'), lt, (x :: f1'). eexists.
  split; [done|]. split; [done|]. split; [done|]. split; [done|].
  split; [|intros save; reflexivity]. reflexivity.
Qed.

Lemma savefig_os_created w out fig :
  can_create (env w) out = true ->
  savefig_os out fig w
  = (Ok tt, {| self := self w; fs := <[out := ImageFile fig]> (fs w);
               env := env w; trace := trace w ++ [EvSavefig out] |}).
Proof. intros Hc. unfold savefig_os, bind, log, write_file; simpl. by rewrite Hc. Qed.

Lemma savefig_os_refused w out fig :
  can_create (env w) out = false ->
  savefig_os out fig w
  = (Raise (FileNotFoundError out),
     {| self := self w; fs := fs w; env := env w;
        trace := trace w ++ [EvSavefig out] |}).
Proof. intros Hc. unfold savefig_os, bind, log; simpl. by rewrite Hc. Qed.

(** C4 as stated fails: the checkpoint below has three sequences of three
    items each, but on a disk where only the models folder exists neither
    [<root>/data/images/net.png] nor [plots/net.png] can be created, and
    both routines end with the error of [plt.savefig]; no image is left. *)
Lemma image_directory_missing :
  fs Zoo.w_models_only !! "/home/u/proj/data/models/b0_best_f1.pth"
    = Some (CheckpointFile (Zoo.checkpoint efficientnet_b0)) /\
  has_metrics (Zoo.checkpoint efficientnet_b0)
    Sample.val_loss Sample.train_loss Sample.f1 /\
  length Sample.val_loss = 3%nat /\ length Sample.train_loss = 3%nat /\
  length Sample.f1 = 3%nat /\
  (exists w',
     Models_plot_training_metrics_os
       "/home/u/proj/data/models/b0_best_f1.pth" "net" Zoo.w_models_only
     = (Raise (FileNotFoundError "/home/u/proj/data/images/net.png"), w') /\
     fs w' !! "/home/u/proj/data/images/net.png" = None) /\
  (exists w',
     plot_training_metrics_os
       "/home/u/proj/data/models/b0_best_f1.pth" "net" "plots"
       Zoo.w_models_only
     = (Raise (FileNotFoundError "plots/net.png"), w') /\
     fs w' !! "plots/net.png" = None).
Proof.
  split; [vm_compute; reflexivity|].
  split; [repeat split; vm_compute; reflexivity|].
  do 3 (split; [reflexivity|]).
  split; eexists; (split; [vm_compute; reflexivity|]); vm_compute; reflexivity.
Qed.

(** C4, as amended. On a checkpoint whose three sequences are non-empty
    and of one length N, each plotting routine returns nothing and leaves an
    image at the expected path ([<root>/data/images/<name>.png] for the
    method, [<output_dir>/<name>.png] for the standalone function), showing
    the three curves over the epochs 1..N, provided the operating system
    lets that file be created: the routines do not make the directory. When
    the file cannot be created, the error of [plt.savefig] ends the routine
    and nothing is written. *)
Theorem plot_saves_image path name dir w ck lv lt f1 N :
  fs w !! path = Some (CheckpointFile ck) ->
  has_metrics ck lv lt f1 ->
  (0 < N)%nat ->
  length lt = N -> length lv = N -> length f1 = N ->
  let image := str (root_folder (self w))
               +:+ "/data/images/" +:+ name +:+ ".png" in
  let image' := dir +:+ "/" +:+ name +:+ ".png" in
  (can_create (env w) image = true ->
   exists w' fig,
     Models_plot_training_metrics_os path name w = (Ok tt, w') /\
     fs w' !! image = Some (ImageFile fig) /\
     curves fig = [(seq 1 N, lt); (seq 1 N, lv); (seq 1 N, f1)]) /\
  (can_create (env w) image = false ->
   Models_plot_training_metrics_os path name w
   = (Raise (FileNotFoundError image), after_failed_save w path image)) /\
  (can_create (env w) image' = true ->
   exists w' fig,
     plot_training_metrics_os path name dir w = (Ok tt, w') /\
     fs w' !! image' = Some (ImageFile fig) /\
     curves fig = [(seq 1 N, lt); (seq 1 N, lv); (seq 1 N, f1)]) /\
  (can_create (env w) image' = false ->
   plot_training_metrics_os path name dir w
   = (Raise (FileNotFoundError image'), after_failed_save w path image')).
Proof.
  intros Hfile Hck HN Ht Hv Hf image image'.
  assert (Hnv : lv <> []) by (intros ->; simpl in Hv; lia).
  assert (Hnf : f1 <> []) by (intros ->; simpl in Hf; lia).
  assert (Hsame : forall ck' lv' lt' f1',
            Some (CheckpointFile ck) = Some (CheckpointFile ck') ->
            has_metrics ck' lv' lt' f1' ->
            lv' = lv /\ lt' = lt /\ f1' = f1).
  { intros ck' lv' lt' f1' Heq (Hv' & Ht' & Hf'). injection Heq as <-.
    destruct Hck as (Hv0 & Ht0 & Hf0).
    rewrite Hv0 in Hv'. rewrite Ht0 in Ht'. rewrite Hf0 in Hf'.
    by simplify_eq. }
  assert (Hm : exists fig,
            curves fig = [(seq 1 N, lt); (seq 1 N, lv); (seq 1 N, f1)] /\
            forall save,
              Models_plot_training_metrics_via save path name w
              = save image fig (loaded w path)).
  { destruct (Models_plot_via_outcome path name w)
      as [(ck' & lv' & lt' & f1' & fig & Hfile' & Hck' & _ & Hcurves & Hrun)
         |(e & Hempty & _)].
    - rewrite Hfile in Hfile'.
      destruct (Hsame _ _ _ _ Hfile' Hck') as (-> & -> & ->).
      exists fig. split; [|exact Hrun].
      rewrite Hcurves. unfold arange1. by rewrite Ht, Hv, Hf.
    - by destruct (Hnf (Hempty _ _ _ _ Hfile Hck)). }
  assert (Hs : exists fig,
            curves fig = [(seq 1 N, lt); (seq 1 N, lv); (seq 1 N, f1)] /\
            forall save,
              plot_training_metrics_via save path name dir w
              = bind (save image' fig)
                     (fun _ => log (EvPrint [Lit "Plot saved to ";
                                             FmtStr image']))
                     (loaded w path)).
  { destruct (plot_function_via_outcome path name dir w)
      as [(ck' & lv' & lt' & f1' & fig & Hfile' & Hck' & _ & _ & Hcurves & Hrun)
         |(e & Hempty & _)].
    - rewrite Hfile in Hfile'.
      destruct (Hsame _ _ _ _ Hfile' Hck') as (-> & -> & ->).
      exists fig. split; [|exact Hrun].
      rewrite Hcurves. unfold arange1. by rewrite Ht, Hv, Hf.
    - by destruct (Hempty _ _ _ _ Hfile Hck). }
  destruct Hm as (fig & Hcurves & Hrun).
  destruct Hs as (fig' & Hcurves' & Hrun').
  unfold Models_plot_training_metrics_os, plot_training_metrics_os.
  rewrite Hrun, Hrun'. unfold bind.
  split; [|split; [|split]]; intros Hc.
  - rewrite savefig_os_created by done.
    eexists _, fig. split; [reflexivity|]. simpl.
    split; [apply lookup_insert_eq | done].
  - rewrite savefig_os_refused by done. unfold after_failed_save; simpl.
    by rewrite <- app_assoc.
  - rewrite savefig_os_created by done.
    eexists _, fig'. split; [reflexivity|]. simpl.
    split; [apply lookup_insert_eq | done].
  - rewrite savefig_os_refused by done. unfold after_failed_save; simpl.
    by rewrite <- app_assoc.
Qed.

Lemma plot_saves_image_witness :
  (exists w' fig,
     Models_plot_training_metrics_os
       "/home/u/proj/data/models/b0_best_f1.pth" "net" Zoo.w = (Ok tt, w') /\
     fs w' !! "/home/u/proj/data/images/net.png" = Some (ImageFile fig) /\
     curves fig = [([1; 2; 3]%nat, Sample.train_loss);
                   ([1; 2; 3]%nat, Sample.val_loss);
                   ([1; 2; 3]%nat, Sample.f1)]) /\
  (exists w' fig,
     plot_training_metrics_os
       "/home/u/proj/data/models/b0_best_f1.pth" "net" "plots" Zoo.w
     = (Ok tt, w') /\
     fs w' !! "plots/net.png" = Some (ImageFile fig) /\
     curves fig = [([1; 2; 3]%nat, Sample.train_loss);
                   ([1; 2; 3]%nat, Sample.val_loss);
                   ([1; 2; 3]%nat, Sample.f1)]) /\
  Models_plot_training_metrics_os
    "/home/u/proj/data/models/b0_best_f1.pth" "net" Zoo.w_models_only
  = (Raise (FileNotFoundError "/home/u/proj/data/images/net.png"),
     after_failed_save Zoo.w_models_only
       "/home/u/proj/data/models/b0_best_f1.pth"
       "/home/u/proj/data/images/net.png").
Proof.
  destruct (plot_saves_image
              "/home/u/proj/data/models/b0_best_f1.pth" "net" "plots" Zoo.w
              (Zoo.checkpoint efficientnet_b0)
              Sample.val_loss Sample.train_loss Sample.f1 3)
    as (Hm & _ & Hf & _);
    [vm_compute; reflexivity | repeat split; vm_compute; reflexivity
    | lia | reflexivity | reflexivity | reflexivity |].
  destruct (plot_saves_image
              "/home/u/proj/data/models/b0_best_f1.pth" "net" "plots"
              Zoo.w_models_only
              (Zoo.checkpoint efficientnet_b0)
              Sample.val_loss Sample.train_loss Sample.f1 3)
    as (_ & Hm' & _);
    [vm_compute; reflexivity | repeat split; vm_compute; reflexivity
    | lia | reflexivity | reflexivity | reflexivity |].
  split; [apply Hm; reflexivity|]. split; [apply Hf; reflexivity|].
  apply Hm'. vm_compute; reflexivity.
Defined.

(** X2. On a disk with directories, [Models.plot_training_metrics] returns
    normally exactly when the file is a checkpoint that holds the three
    sequences as lists, the F1 list is not empty, and the operating system
    lets the image [<root>/data/images/<name>.png] be created. Nothing else
    is asked of the two loss lists: they may be empty. *)
Theorem Models_plot_returns_iff path name w :
  (exists w', Models_plot_training_metrics_os path name w = (Ok tt, w')) <->
  ((exists ck lv lt f1,
      fs w !! path = Some (CheckpointFile ck) /\
      has_metrics ck lv lt f1 /\ f1 <> []) /\
   can_create (env w) (str (root_folder (self w))
                       +:+ "/data/images/" +:+ name +:+ ".png") = true).
Proof.
  unfold Models_plot_training_metrics_os.
  destruct (Models_plot_via_outcome path name w)
    as [(ck & lv & lt & f1 & fig & Hfile & Hck & Hne & _ & Hrun)
       |(e & Hempty & Hrun)]; rewrite Hrun; split.
  - intros [w' Hok]. split; [by exists ck, lv, lt, f1|].
    destruct (can_create (env w) _) eqn:Hc; [done|].
    by rewrite savefig_os_refused in Hok.
  - intros [_ Hc]. rewrite savefig_os_created by done. by eexists.
  - by intros [w' Hok].
  - intros [(ck & lv & lt & f1 & Hfile & Hck & Hne) _].
    by destruct (Hne (Hempty _ _ _ _ Hfile Hck)).
Qed.

Lemma Models_plot_returns_iff_witness :
  exists w',
    Models_plot_training_metrics_os
      "/home/u/proj/data/models/short_best_f1.pth" "short" Sample.w
    = (Ok tt, w').
Proof.
  apply (proj2 (Models_plot_returns_iff
                  "/home/u/proj/data/models/short_best_f1.pth" "short"
                  Sample.w)).
  split; [|reflexivity].
  exists Sample.no_train_loss, Sample.val_loss, [], Sample.f1.
  split; [vm_compute; reflexivity|].
  split; [repeat split; vm_compute; reflexivity | discriminate].
Defined.

(** X3. On a disk with directories, the standalone [plot_training_metrics]
    returns normally exactly when the file is a checkpoint that holds the
    three sequences as lists, neither the validation losses nor the F1 list
    is empty, and the operating system lets the image
    [<output_dir>/<net_name>.png] be created; the training losses may be
    empty. *)
Theorem plot_function_returns_iff path name dir w :
  (exists w', plot_training_metrics_os path name dir w = (Ok tt, w')) <->
  ((exists ck lv lt f1,
      fs w !! path = Some (CheckpointFile ck) /\
      has_metrics ck lv lt f1 /\ lv <> [] /\ f1 <> []) /\
   can_create (env w) (dir +:+ "/" +:+ name +:+ ".png") = true).
Proof.
  unfold plot_training_metrics_os.
  destruct (plot_function_via_outcome path name dir w)
    as [(ck & lv & lt & f1 & fig & Hfile & Hck & Hnv & Hne & _ & Hrun)
       |(e & Hempty & Hrun)]; rewrite Hrun; unfold bind; split.
  - intros [w' Hok]. split; [by exists ck, lv, lt, f1|].
    destruct (can_create (env w) _) eqn:Hc; [done|].
    by rewrite savefig_os_refused in Hok.
  - intros [_ Hc]. rewrite savefig_os_created by done. by eexists.
  - by intros [w' Hok].
  - intros [(ck & lv & lt & f1 & Hfile & Hck & Hnv & Hne) _].
    by destruct (Hempty _ _ _ _ Hfile Hck).
Qed.

Lemma plot_function_returns_iff_witness :
  exists w',
    plot_training_metrics_os
      "/home/u/proj/data/models/short_best_f1.pth" "short" "plots" Sample.w
    = (Ok tt, w').
Proof.
  apply (proj2 (plot_function_returns_iff
                  "/home/u/proj/data/models/short_best_f1.pth" "short"
                  "plots" Sample.w)).
  split; [|reflexivity].
  exists Sample.no_train_loss, Sample.val_loss, [], Sample.f1.
  split; [vm_compute; reflexivity|].
  split; [repeat split; vm_compute; reflexivity | split; discriminate].
Defined.

(** X4. On a disk with directories and whatever the outcome,
    [Models.plot_training_metrics] leaves the [Models] object alone and
    changes no file but the image [<root>/data/images/<name>.png]. When it
    raises it has written nothing; what it did before is the attempt to load
    the checkpoint and, when the checkpoint could be drawn, the attempt to
    save the image. When it returns it has loaded once and saved once. *)
Theorem Models_plot_touches_only_its_image path name w :
  let out := str (root_folder (self w))
             +:+ "/data/images/" +:+ name +:+ ".png" in
  let r := Models_plot_training_metrics_os path name w in
  self (snd r) = self w /\
  (forall p, p <> out -> fs (snd r) !! p = fs w !! p) /\
  match fst r with
  | Ok _ =>
      is_Some (fs (snd r) !! out) /\
      trace (snd r) = trace w ++ [EvLoad path; EvSavefig out]
  | Raise e =>
      fs (snd r) = fs w /\
      (trace (snd r) = trace w ++ [EvLoad path] \/
       e = FileNotFoundError out /\
       trace (snd r) = trace w ++ [EvLoad path; EvSavefig out])
  end.
Proof.
  intros out r. subst r. unfold Models_plot_training_metrics_os.
  destruct (Models_plot_via_outcome path name w)
    as [(ck & lv & lt & f1 & fig & _ & _ & _ & _ & Hrun)|(e & _ & Hrun)];
    rewrite Hrun.
  - fold out. destruct (can_create (env w) out) eqn:Hc.
    + rewrite savefig_os_created by done. simpl.
      split; [done|]. split; [intros p Hp; by apply lookup_insert_ne|].
      split; [rewrite lookup_insert_eq; by eexists | by rewrite <- app_assoc].
    + rewrite savefig_os_refused by done. simpl.
      split; [done|]. split; [done|]. split; [done|].
      right. split; [done | by rewrite <- app_assoc].
  - simpl. split; [done|]. split; [done|]. split; [done | by left].
Qed.

(** ** The limit of the F1 axis *)

Lemma scaled_limit (m : Q) :
  ((0 <= m -> m <= m * (1015 # 1000)) /\
   (m <= 0 -> m * (1015 # 1000) <= m))%Q.
Proof.
  destruct m as [a b]. unfold Qle, Qmult; simpl.
  rewrite Pos2Z.inj_mul.
  split; intros H; nia.
Qed.

(** X8. In the image [Models.plot_training_metrics] saves, the upper limit
    of the F1 axis is 1.015 times the greatest F1 value. When that value is
    not negative, every point of the F1 curve is at or below the limit; when
    it is not positive, the limit is not above it. The loss axis gets no
    limit. *)
Theorem Models_plot_ylim path name w w' :
  Models_plot_training_metrics path name w = (Ok tt, w') ->
  exists fig f1 m,
    fs w' !! (str (root_folder (self w))
              +:+ "/data/images/" +:+ name +:+ ".png") = Some (ImageFile fig) /\
    curves fig !! 2%nat = Some (arange1 (length f1), f1) /\
    m ∈ f1 /\ (forall z, z ∈ f1 -> (z <= m)%Q) /\
    ylim_top (ax_right fig) = Some (m * (1015 # 1000))%Q /\
    ylim_top (ax_left fig) = None /\
    ((0 <= m)%Q -> forall z, z ∈ f1 -> (z <= m * (1015 # 1000))%Q) /\
    ((m <= 0)%Q -> (m * (1015 # 1000) <= m)%Q).
Proof.
  intros Hrun.
  destruct (Models_plot_outcome path name w)
    as [(ck & lv & lt & f1 & i & m & fig & _ & _ & Hm & Hi & Hok & Hcurves
         & _ & _ & _ & _ & Hlim & Hleft & _)
       |(e & Hfail)]; [|by rewrite Hrun in Hfail].
  rewrite Hrun in Hok. injection Hok as ->.
  assert (Hitem : f1 !! i = Some m) by (by apply index_of_max_holds_max).
  assert (Hmax : forall z, z ∈ f1 -> (z <= m)%Q).
  { destruct f1 as [|x t]; [done|]. simpl in Hm. injection Hm as <-.
    destruct (max_from_bounds x t) as (Ha & Hall & _).
    intros z [->|Hz]%elem_of_cons; [done | by apply Hall]. }
  destruct (scaled_limit m) as [Hpos Hneg].
  exists fig, f1, m. split; [apply lookup_after_plot|].
  split; [by rewrite Hcurves|].
  split; [by eapply list_elem_of_lookup_2|].
  split; [done|]. split; [done|]. split; [done|]. split; [|done].
  intros H0 z Hz. eapply Qle_trans; [by apply Hmax | by apply Hpos].
Qed.

Lemma Models_plot_ylim_witness :
  exists fig f1 m,
    fs (snd (Models_plot_training_metrics
               "/home/u/proj/data/models/effb0_best_f1.pth" "net" Sample.w))
      !! "/home/u/proj/data/images/net.png" = Some (ImageFile fig) /\
    curves fig !! 2%nat = Some (arange1 (length f1), f1) /\
    m ∈ f1 /\ (forall z, z ∈ f1 -> (z <= m)%Q) /\
    ylim_top (ax_right fig) = Some (m * (1015 # 1000))%Q /\
    ylim_top (ax_left fig) = None /\
    ((0 <= m)%Q -> forall z, z ∈ f1 -> (z <= m * (1015 # 1000))%Q) /\
    ((m <= 0)%Q -> (m * (1015 # 1000) <= m)%Q).
Proof.
  apply (Models_plot_ylim
           "/home/u/proj/data/models/effb0_best_f1.pth" "net" Sample.w).
  vm_compute; reflexivity.
Defined.

(** ** New models, and the download *)



(** X17. [download_from_kaggle] looks at the download folder before it
    calls the dataset host. When a plain file sits at the folder's path it
    raises a FileExistsError, and when the folder is missing and cannot be
    made (its parent is missing) a FileNotFoundError; in both cases the host
    is not called and nothing is written. When the folder is there and the
    host's client raises, that exception ends the call after the one
    request for the dataset "dzmitrypihulski/models-for-hackathon". In every
    outcome the [Models] object is as it was. *)
Theorem download_checks_folder_first w :
  let dir := str (download_folder (self w)) in
  let r := download_from_kaggle w in
  self (snd r) = self w /\
  (is_directory (env w) dir = false ->
   forall f, fs w !! dir = Some f -> r = (Raise (FileExistsError dir), w)) /\
  (is_directory (env w) dir = false ->
   fs w !! dir = None -> can_create (env w) dir = false ->
   r = (Raise (FileNotFoundError dir), w)) /\
  (is_directory (env w) dir = true ->
   forall e, kaggle_download (env w) = Raise e ->
   fst r = Raise e /\
   trace (snd r)
   = trace w ++ [EvDownload "dzmitrypihulski/models-for-hackathon" dir]).
Proof.
  intros dir r. split; [apply keeps_download_from_kaggle|].
  subst r. unfold download_from_kaggle, mkdir_exist_ok,
    dataset_download_files, bind, get_self, log; simpl. fold dir.
  split; [|split].
  - intros Hd f Hf. by rewrite Hd, Hf.
  - intros Hd Hf Hc. by rewrite Hd, Hf, Hc.
  - intros Hd e He. by rewrite Hd, He.
Qed.

Lemma download_checks_folder_first_witness :
  download_from_kaggle
    (start Sample.me
       (<["/home/u/proj/data/models" :=
            CheckpointFile (Zoo.checkpoint efficientnet_b0)]> ∅)
       {| can_create := fun _ => true; is_directory := fun _ => false;
          kaggle_download := Ok [] |})
  = (Raise (FileExistsError "/home/u/proj/data/models"),
     start Sample.me
       (<["/home/u/proj/data/models" :=
            CheckpointFile (Zoo.checkpoint efficientnet_b0)]> ∅)
       {| can_create := fun _ => true; is_directory := fun _ => false;
          kaggle_download := Ok [] |}).
Proof.
  destruct (download_checks_folder_first
              (start Sample.me
                 (<["/home/u/proj/data/models" :=
                      CheckpointFile (Zoo.checkpoint efficientnet_b0)]> ∅)
                 {| can_create := fun _ => true; is_directory := fun _ => false;
                    kaggle_download := Ok [] |}))
    as (_ & Hexists & _).
  apply (Hexists eq_refl (CheckpointFile (Zoo.checkpoint efficientnet_b0))).
  vm_compute; reflexivity.
Defined.
